(** * fravia-mcp: the query construction engine

    A shallow embedding of [buildQueries] (src/executor.ts),
    [getActiveFilters] and [getDefaultConfig] (src/config.ts) and
    [getPhaseMenu] with its tables (src/phases.ts), followed by the
    properties of the specification that concern them.

    Conventions of the embedding.
    - A JavaScript string is a Rocq [string]; one [ascii] stands for one
      character.  [toLowerCase] changes the letters A to Z only: no character
      outside ASCII lowers to a letter of the relax table or of an engine
      name, so nothing the functions below test depends on the others.
    - A [number] holding a phase is a [Z]; array indices are [nat].
    - A [Map] and an object literal iterated with [Object.entries] are
      association lists in insertion order; a [Set] that is only tested for
      membership is a [gset], a [Set] that is iterated is a duplicate-free
      list in insertion order.
    - No operation of these functions throws, so they are total functions
      without an error type. *)

From Stdlib Require Import ZArith String Ascii List DecimalString Lia.
From stdpp Require Import gmap strings list.

(** ** Strings *)

Definition dquote : ascii := "034".

(** Literals of the source that contain a double quote are written with a
    backquote in its place (no literal of the source has a backquote);
    [lit] puts the double quotes back. *)
Fixpoint lit (s : string) : string :=
  match s with
  | EmptyString => EmptyString
  | String c rest => String (if Ascii.eqb c "`" then dquote else c) (lit rest)
  end.

Definition chars (s : string) : list ascii := list_ascii_of_string s.

Definition isUpper (c : ascii) : bool :=
  (65 <=? nat_of_ascii c)%nat && (nat_of_ascii c <=? 90)%nat.

Definition isDigit (c : ascii) : bool :=
  (48 <=? nat_of_ascii c)%nat && (nat_of_ascii c <=? 57)%nat.

Definition lowerChar (c : ascii) : ascii :=
  if isUpper c then ascii_of_nat (nat_of_ascii c + 32) else c.

(** [String.prototype.toLowerCase]. *)
Fixpoint toLowerCase (s : string) : string :=
  match s with
  | EmptyString => EmptyString
  | String c rest => String (lowerChar c) (toLowerCase rest)
  end.

(** Truthiness of a string: every string but the empty one. *)
Definition truthy (s : string) : bool := negb (String.eqb s "").

(** The template literal [`${n}`] for a number that holds an integer. *)
Definition numberToString (n : Z) : string := NilZero.string_of_int (Z.to_int n).

Definition indexToString (j : nat) : string := NilZero.string_of_uint (Nat.to_uint j).

(** [Array.prototype.join]. *)
Definition join (sep : string) (l : list string) : string := String.concat sep l.

(** ** Regular expressions and [String.prototype.replace]

    A regular expression is given by what it matches at the head of a
    string: the length of the match there, if any.  The three expressions
    of [buildQueries] match one character or at least three, never the
    empty string. *)

Definition Matcher : Type := string → option nat.

(** [new RegExp(`<${j}>`, "g")]: the pattern has no character that is
    special in a regular expression, it matches itself. *)
Definition topicPlaceholder (j : nat) : Matcher := fun s =>
  let pat := "<" +:+ indexToString j +:+ ">" in
  if String.prefix pat s then Some (String.length pat) else None.

Fixpoint digitRun (s : string) : nat :=
  match s with
  | String c rest => if isDigit c then S (digitRun rest) else 0
  | EmptyString => 0
  end.

(** [/<\d+>/g]: the greedy run of digits after the opening bracket must be
    non-empty and followed by the closing bracket; giving digits back
    cannot help, the character after a shorter run is a digit. *)
Definition anyPlaceholder : Matcher := fun s =>
  match s with
  | String c rest =>
      if Ascii.eqb c "<" then
        match digitRun rest with
        | 0 => None
        | S n =>
            match String.get (S n) rest with
            | Some d => if Ascii.eqb d ">" then Some (S n + 2) else None
            | None => None
            end
        end
      else None
  | EmptyString => None
  end.

(** GetSubstitution of ECMAScript for a pattern without capture groups:
    in the replacement text, [$$] is a dollar, [$&] the matched text, [$`]
    the text before the match and [$'] the text after it; a dollar followed
    by anything else (a digit or [<] included, as there is no group to
    refer to) stands for itself. *)
Fixpoint getSubstitution (replacement matched before after : string) : string :=
  match replacement with
  | EmptyString => EmptyString
  | String c rest =>
      if Ascii.eqb c "$" then
        match rest with
        | EmptyString => String c EmptyString
        | String d rest' =>
            if Ascii.eqb d "$" then String "$" (getSubstitution rest' matched before after)
            else if Ascii.eqb d "&" then matched +:+ getSubstitution rest' matched before after
            else if Ascii.eqb d "`" then before +:+ getSubstitution rest' matched before after
            else if Ascii.eqb d "'" then after +:+ getSubstitution rest' matched before after
            else String c (getSubstitution rest matched before after)
        end
      else String c (getSubstitution rest matched before after)
  end.

(** The scan of a global replace.  [before] is the part of the subject
    already passed, [skip] the number of characters of the current match
    still to pass; [subst matched before after] is the text put in place of
    a match. *)
Fixpoint replaceFrom (re : Matcher) (subst : string → string → string → string)
    (skip : nat) (before s : string) : string :=
  match s with
  | EmptyString => EmptyString
  | String c rest =>
      match skip with
      | S k => replaceFrom re subst k (before +:+ String c EmptyString) rest
      | 0 =>
          match re s with
          | Some (S len) =>
              subst (substring 0 (S len) s) before
                    (substring (S len) (String.length s - S len) s)
                +:+ replaceFrom re subst len (before +:+ String c EmptyString) rest
          | _ => String c (replaceFrom re subst 0 (before +:+ String c EmptyString) rest)
          end
      end
  end.

(** [s.replace(re, replaceValue)] for a global [re] and a string
    [replaceValue]. *)
Definition replace (re : Matcher) (replaceValue : string) (s : string) : string :=
  replaceFrom re (getSubstitution replaceValue) 0 "" s.

(** Replacement by a fixed text, taken verbatim: what a replace is when
    the replacement has no dollar pattern. *)
Definition replaceVerbatim (re : Matcher) (text : string) (s : string) : string :=
  replaceFrom re (fun _ _ _ => text) 0 "" s.

(** ** The data model (src/phases.ts, src/config.ts, src/executor.ts) *)

Inductive OnOff : Type := ON | OFF.

Module NoiseFilter.
Record t : Type := mk
  { code : string; name : string; applies : string; default : OnOff }.
End NoiseFilter.

Module BuildingBlock.
Record t : Type := mk
  { code : string;
    name : string;
    description : string;
    engines : list (string * list string) }.
End BuildingBlock.

Module Precombination.
Record t : Type := mk
  { code : string; name : string; expandsTo : list string; description : string }.
End Precombination.

Module Phase.
Record t : Type := mk { id : string; name : string; purpose : string }.
End Phase.

(** [Omit<PhaseMenu, "phase" | "noiseFilters">], the type of the entries of
    [PHASE_MENUS]. *)
Module PhaseData.
Record t : Type := mk
  { id : string;
    name : string;
    purpose : string;
    buildingBlocks : list BuildingBlock.t;
    precombinations : list Precombination.t;
    engineNuances : list (string * string) }.
End PhaseData.

Module PhaseMenu.
Record t : Type := mk
  { phase : Z;
    id : string;
    name : string;
    purpose : string;
    noiseFilters : list NoiseFilter.t;
    buildingBlocks : list BuildingBlock.t;
    precombinations : list Precombination.t;
    engineNuances : list (string * string) }.
End PhaseMenu.

Module FilterConfig.
Record t : Type := mk
  { code : string;
    name : string;
    google : string;
    bing : string;
    yandex : string;
    ddg : string }.
End FilterConfig.

Module OptionConfig.
Record t : Type := mk { code : string; description : string; value : string }.
End OptionConfig.

Module PhaseConfig.
Record t : Type := mk
  { description : string;
    nuance : string;
    options : list (string * OptionConfig.t) }.
End PhaseConfig.

Module FraviaConfig.
Record t : Type := mk
  { version : string;
    filters : list (string * FilterConfig.t);
    phases : list (string * PhaseConfig.t) }.
End FraviaConfig.

Module Query.
Record t : Type := mk
  { engine : string; query : string; phase : Z; blockCode : string }.
End Query.

(** ** The tables of src/phases.ts *)

Definition NOISE_FILTERS : list NoiseFilter.t :=
  [ NoiseFilter.mk "s" "Social/Forum" "Pinterest, Reddit, Quora, Facebook, Twitter" ON;
    NoiseFilter.mk "f" "Free Hosting/Blogs" "Blogspot, Wix, Weebly, Tumblr, WordPress.com" ON;
    NoiseFilter.mk "t" "Spam TLDs"
      ".info, .xyz, .top, .click, .online, .site, .space, .icu, .buzz" ON;
    NoiseFilter.mk "u" "Structural Cruft"
      "/tag/, /category/, /page/, /archive/, ?p=, ?page=" ON;
    NoiseFilter.mk "c" "Commercial/Affiliate"
      "affiliate tracking, 'we may earn', Amazon associate" ON;
    NoiseFilter.mk "l" "Clickbait/Listicles" "top 10, best X for Y, ultimate guide" ON;
    NoiseFilter.mk "a" "Generic AI Slop"
      "comprehensive guide, let's dive in, without further ado" ON ].

Definition PHASES : list Phase.t :=
  [ Phase.mk "S1" "Reconnaissance" "Map vocabulary, key actors, obvious authority and garbage";
    Phase.mk "S2" "Surface Scan" "Clean, high-signal overview of known information";
    Phase.mk "S3" "Deep Documents" "Extract PDFs, XLS, technical artifacts";
    Phase.mk "S4" "Structural Mapping" "APIs, subdomains, infrastructure discovery";
    Phase.mk "S5" "Filtered High-Signal" "Maximum filter strictness, authority sources only";
    Phase.mk "S6" "Negative-Space" "Failures, contradictions, what's missing";
    Phase.mk "S7" "Temporal Evolution" "Historical analysis, time-bounded searches";
    Phase.mk "S8" "Language/Regional Lateral" "Cross-language, regional engine exploration" ].

(** The table [PHASE_MENUS]. *)
Definition PHASE_MENUS : list (Z * PhaseData.t) :=
  [
  (1%Z,
   {| PhaseData.id := "S1";
      PhaseData.name := "Reconnaissance";
      PhaseData.purpose :=
        "Map vocabulary, key actors, obvious authority and obvious garbage around the topic.";
      PhaseData.buildingBlocks := [
      {| BuildingBlock.code := "A";
         BuildingBlock.name := "Broad term+synonym sweep";
         BuildingBlock.description :=
           "Use topic + all synonyms to discover how the web names this thing.";
         BuildingBlock.engines :=
           [
             ("google", [lit "`<0>` OR `<1>` OR `<2>`"]);
             ("bing", [lit "`<0>` OR `<1>` OR `<2>`"]);
             ("yandex", [lit "`<0>` | `<1>` | `<2>`"]) ] |};
      {| BuildingBlock.code := "B";
         BuildingBlock.name := "Term + context word";
         BuildingBlock.description :=
           "Pair main subject with generic context (overview, definition) to bias intros.";
         BuildingBlock.engines :=
           [
             ("google", [lit "`<0>` `overview`"; lit "`<0>` `definition`"]);
             ("bing", [lit "`<0>` `introduction`"]);
             ("yandex", [lit "`<0>` & `what is`"]) ] |};
      {| BuildingBlock.code := "C";
         BuildingBlock.name := "Entity co-mention";
         BuildingBlock.description :=
           "Find entities that appear near your subject to identify linked products/companies.";
         BuildingBlock.engines :=
           [
             ("google", [lit "`<0>` AROUND(8) `cloud`"; lit "`<0>` AROUND(8) `GPU`"]);
             ("bing", [lit "`<0>` near:8 `server`"]);
             ("yandex", [lit "`<0>` /5 `technology`"]) ] |} ];
      PhaseData.precombinations := [
      {| Precombination.code := "X";
         Precombination.name := "Standard Recon Combo";
         Precombination.expandsTo := ["A"; "B"];
         Precombination.description := "Broad sweep + definition focus" |};
      {| Precombination.code := "Y";
         Precombination.name := "Infra-tinged Recon";
         Precombination.expandsTo := ["A"; "C"];
         Precombination.description := "Broad sweep + entity co-mentions" |} ];
      PhaseData.engineNuances := [
      ("google",
       "G: Text & entity co-occurrence. AROUND(n) for concept binding. High SEO noise at reconnaissance.");
      ("bing",
       "G: Alternate view of same space. May surface smaller or regional sites Google buries.");
      ("yandex",
       "G: Early hint of regional (RU/CIS) coverage. Structural TLD distribution.") ] |});
  (2%Z,
   {| PhaseData.id := "S2";
      PhaseData.name := "Surface Scan";
      PhaseData.purpose :=
        "Obtain a clean, higher-signal overview of what is known about the topic.";
      PhaseData.buildingBlocks := [
      {| BuildingBlock.code := "A";
         BuildingBlock.name := "Authority overview (edu/gov/org)";
         BuildingBlock.description :=
           "Bias towards official or academic overview material.";
         BuildingBlock.engines :=
           [
             ("google", [lit "`<0>` overview OR introduction (site:edu OR site:gov OR site:org)"]);
             ("bing", [lit "`<0>` (overview OR definition) (site:edu OR site:gov OR site:org)"]);
             ("yandex", [lit "`<0>` & (overview | introduction) (site:*.edu | site:*.gov)"]) ] |};
      {| BuildingBlock.code := "B";
         BuildingBlock.name := "Current state / recent developments";
         BuildingBlock.description :=
           "Emphasize recency to see what has changed lately.";
         BuildingBlock.engines :=
           [
             ("google", [lit "`<0>` `current state` OR `recent developments` after:2023-01-01"]);
             ("bing", [lit "`<0>` `recent` OR `latest` language:en"]);
             ("yandex", [lit "`<0>` date:>20230101"]) ] |};
      {| BuildingBlock.code := "C";
         BuildingBlock.name := "Practice & usage";
         BuildingBlock.description :=
           "How the topic is used in the field (developer docs, guides).";
         BuildingBlock.engines :=
           [
             ("google", [lit "`<0>` `developer guide` OR `getting started`"]);
             ("bing", [lit "`<0>` `documentation` (site:docs.* OR site:developer.*)"]);
             ("yandex", [lit "`<0>` & (documentation | guide) domain:com"]) ] |} ];
      PhaseData.precombinations := [
      {| Precombination.code := "X";
         Precombination.name := "Balanced Surface Overview";
         Precombination.expandsTo := ["A"; "C"];
         Precombination.description := "Authority + practical usage" |};
      {| Precombination.code := "Y";
         Precombination.name := "Recency-Biased Overview";
         Precombination.expandsTo := ["A"; "B"];
         Precombination.description := "Authority + recent focus" |} ];
      PhaseData.engineNuances := [
      ("google",
       "G: Will tend to show polished explainers and official docs first once noise is suppressed.");
      ("bing",
       "G: Good for finding Microsoft/industry whitepapers or niche docs that Google buries.");
      ("yandex",
       "G: Useful to see whether there is a significant non-English body of overview material.") ] |});
  (3%Z,
   {| PhaseData.id := "S3";
      PhaseData.name := "Deep Documents";
      PhaseData.purpose :=
        "Extract non-HTML artifacts: PDFs, spreadsheets, presentations, data files.";
      PhaseData.buildingBlocks := [
      {| BuildingBlock.code := "A";
         BuildingBlock.name := "PDF Extraction (All Engines)";
         BuildingBlock.description :=
           "Find PDF documents across all engines.";
         BuildingBlock.engines :=
           [
             ("google", [lit "`<0>` filetype:pdf"]);
             ("bing", [lit "`<0>` contains:pdf"]);
             ("yandex", [lit "`<0>` mime:pdf"]) ] |};
      {| BuildingBlock.code := "B";
         BuildingBlock.name := "Data/Config Files (XLS/JSON)";
         BuildingBlock.description :=
           "Find spreadsheets, data files, configuration files.";
         BuildingBlock.engines :=
           [
             ("google", [lit "`<0>` (filetype:xls OR filetype:xlsx OR filetype:json)"]);
             ("bing", [lit "`<0>` contains:xlsx"]);
             ("yandex", [lit "`<0>` (mime:xls | mime:json)"]) ] |};
      {| BuildingBlock.code := "C";
         BuildingBlock.name := "Academic PDFs Only";
         BuildingBlock.description :=
           "PDFs from academic sources.";
         BuildingBlock.engines :=
           [
             ("google", [lit "`<0>` filetype:pdf site:edu"]);
             ("bing", [lit "`<0>` contains:pdf site:edu"]);
             ("yandex", [lit "`<0>` mime:pdf site:*.edu"]) ] |};
      {| BuildingBlock.code := "D";
         BuildingBlock.name := "Presentations";
         BuildingBlock.description :=
           "PowerPoint and presentation files.";
         BuildingBlock.engines :=
           [
             ("google", [lit "`<0>` (filetype:ppt OR filetype:pptx)"]);
             ("bing", [lit "`<0>` contains:pptx"]);
             ("yandex", [lit "`<0>` mime:ppt"]) ] |} ];
      PhaseData.precombinations := [
      {| Precombination.code := "X";
         Precombination.name := "Full Document Sweep";
         Precombination.expandsTo := ["A"; "B"; "D"];
         Precombination.description := "All document types" |};
      {| Precombination.code := "Y";
         Precombination.name := "Academic Focus";
         Precombination.expandsTo := ["A"; "C"];
         Precombination.description := "PDFs with academic bias" |} ];
      PhaseData.engineNuances := [
      ("google",
       "G: Text inside PDF searchable. filetype: operator.");
      ("bing",
       "G: contains: finds pages hosting files.");
      ("yandex",
       "G: mime: for raw file type matching.") ] |});
  (4%Z,
   {| PhaseData.id := "S4";
      PhaseData.name := "Structural Mapping";
      PhaseData.purpose :=
        "Map digital layout: APIs, subdomains, infrastructure.";
      PhaseData.buildingBlocks := [
      {| BuildingBlock.code := "A";
         BuildingBlock.name := "Subdomain Map";
         BuildingBlock.description :=
           "Discover subdomains of target domain.";
         BuildingBlock.engines :=
           [
             ("yandex", ["rhost:com.<0>.*"]);
             ("bing", ["site:<0>"]);
             ("google", ["site:*.<0>"]) ] |};
      {| BuildingBlock.code := "B";
         BuildingBlock.name := "API/Docs Discovery";
         BuildingBlock.description :=
           "Find API documentation and developer resources.";
         BuildingBlock.engines :=
           [
             ("google", ["site:<0> inurl:api OR inurl:docs"]);
             ("bing", ["site:<0> inurl:api"]);
             ("yandex", ["site:<0> & (api | docs)"]) ] |};
      {| BuildingBlock.code := "C";
         BuildingBlock.name := "Directory Listings";
         BuildingBlock.description :=
           "Find exposed directory listings.";
         BuildingBlock.engines :=
           [
             ("google", [lit "intitle:`index of` `<0>`"]);
             ("bing", [lit "intitle:`index of` `<0>`"]);
             ("yandex", [lit "title:`index of` `<0>`"]) ] |} ];
      PhaseData.precombinations := [
      {| Precombination.code := "X";
         Precombination.name := "Infrastructure Sweep";
         Precombination.expandsTo := ["A"; "B"];
         Precombination.description := "Subdomains + APIs" |} ];
      PhaseData.engineNuances := [
      ("bing",
       "G: ip: finds neighbors on same IP.");
      ("yandex",
       "G: rhost: reverse host for subdomain discovery.");
      ("google",
       "G: site:*.domain for wildcard subdomain.") ] |});
  (5%Z,
   {| PhaseData.id := "S5";
      PhaseData.name := "Filtered High-Signal";
      PhaseData.purpose :=
        "Maximum filter strictness, authority sources only.";
      PhaseData.buildingBlocks := [
      {| BuildingBlock.code := "A";
         BuildingBlock.name := "Academic Authority Lock";
         BuildingBlock.description :=
           "Only .edu, .ac.*, research institutions.";
         BuildingBlock.engines :=
           [
             ("google", [lit "`<0>` (site:edu OR site:ac.* OR site:arxiv.org OR site:researchgate.net)"]);
             ("bing", [lit "`<0>` (site:edu OR site:ac.*)"]);
             ("yandex", [lit "`<0>` (site:*.edu | site:*.ac.*)"]) ] |};
      {| BuildingBlock.code := "B";
         BuildingBlock.name := "Government Authority Lock";
         BuildingBlock.description :=
           "Only .gov, .mil, official government sources.";
         BuildingBlock.engines :=
           [
             ("google", [lit "`<0>` (site:gov OR site:gov.* OR site:mil)"]);
             ("bing", [lit "`<0>` (site:gov OR site:gov.*)"]);
             ("yandex", [lit "`<0>` (site:*.gov | site:*.mil)"]) ] |};
      {| BuildingBlock.code := "C";
         BuildingBlock.name := "Technical Authority Lock";
         BuildingBlock.description :=
           "GitHub, StackOverflow, official docs.";
         BuildingBlock.engines :=
           [
             ("google", [lit "`<0>` (site:github.com OR site:stackoverflow.com OR site:developer.*)"]);
             ("bing", [lit "`<0>` (site:github.com OR site:stackoverflow.com)"]);
             ("yandex", [lit "`<0>` (site:github.com | site:stackoverflow.com)"]) ] |} ];
      PhaseData.precombinations := [
      {| Precombination.code := "X";
         Precombination.name := "All Authority";
         Precombination.expandsTo := ["A"; "B"; "C"];
         Precombination.description := "Academic + Gov + Tech" |} ];
      PhaseData.engineNuances := [
      ("google",
       "G: Combine with date filters for authoritative recent.");
      ("bing",
       "G: prefer: boosts but doesn't exclude.");
      ("yandex",
       "G: domain: for TLD-only filtering.") ] |});
  (6%Z,
   {| PhaseData.id := "S6";
      PhaseData.name := "Negative-Space";
      PhaseData.purpose :=
        "Find failures, contradictions, criticism, what is missing.";
      PhaseData.buildingBlocks := [
      {| BuildingBlock.code := "A";
         BuildingBlock.name := "Failure/Problem Search";
         BuildingBlock.description :=
           "Find discussions of problems, failures, issues.";
         BuildingBlock.engines :=
           [
             ("google", [lit "`<0>` (failed OR failure OR problem OR issue OR bug)"]);
             ("bing", [lit "`<0>` (problem OR issue OR failure)"]);
             ("yandex", [lit "`<0>` & (problem | failure | bug)"]) ] |};
      {| BuildingBlock.code := "B";
         BuildingBlock.name := "Criticism/Controversy";
         BuildingBlock.description :=
           "Find critical perspectives and controversies.";
         BuildingBlock.engines :=
           [
             ("google", [lit "`<0>` (criticism OR controversy OR debate OR questioned)"]);
             ("bing", [lit "`<0>` (criticism OR controversy)"]);
             ("yandex", [lit "`<0>` & (criticism | controversy)"]) ] |};
      {| BuildingBlock.code := "C";
         BuildingBlock.name := "Exclude Dominant Sources";
         BuildingBlock.description :=
           "Find obscure sources by excluding major ones.";
         BuildingBlock.engines :=
           [
             ("google", [lit "`<0>` -site:wikipedia.org -site:britannica.com -site:medium.com"]);
             ("bing", [lit "`<0>` NOT site:wikipedia.org NOT site:medium.com"]);
             ("yandex", [lit "`<0>` -site:wikipedia.org -site:medium.com"]) ] |} ];
      PhaseData.precombinations := [
      {| Precombination.code := "X";
         Precombination.name := "Full Negative Space";
         Precombination.expandsTo := ["A"; "B"; "C"];
         Precombination.description := "Problems + Criticism + Obscure" |} ];
      PhaseData.engineNuances := [
      ("google",
       "G: AROUND(n) to find terms near 'problem' or 'failure'.");
      ("bing",
       "G: NOT for exclusion, near: for proximity.");
      ("yandex",
       "G: - prefix for exclusion.") ] |});
  (7%Z,
   {| PhaseData.id := "S7";
      PhaseData.name := "Temporal Evolution";
      PhaseData.purpose :=
        "Historical analysis, time-bounded searches, evolution of topic.";
      PhaseData.buildingBlocks := [
      {| BuildingBlock.code := "A";
         BuildingBlock.name := "Recent Only (Last Year)";
         BuildingBlock.description :=
           "Content from the last year only.";
         BuildingBlock.engines :=
           [
             ("google", [lit "`<0>` after:2024-01-01"]);
             ("bing", [lit "`<0>`"]);
             ("yandex", [lit "`<0>` date:>20240101"]) ] |};
      {| BuildingBlock.code := "B";
         BuildingBlock.name := "Historical (Pre-2020)";
         BuildingBlock.description :=
           "Older content before recent hype cycles.";
         BuildingBlock.engines :=
           [
             ("google", [lit "`<0>` before:2020-01-01"]);
             ("bing", [lit "`<0>`"]);
             ("yandex", [lit "`<0>` date:<20200101"]) ] |};
      {| BuildingBlock.code := "C";
         BuildingBlock.name := "Wayback Machine";
         BuildingBlock.description :=
           "Search Internet Archive for historical snapshots.";
         BuildingBlock.engines :=
           [
             ("archive", ["<0>"]);
             ("google", [lit "site:web.archive.org `<0>`"]) ] |} ];
      PhaseData.precombinations := [
      {| Precombination.code := "X";
         Precombination.name := "Time Contrast";
         Precombination.expandsTo := ["A"; "B"];
         Precombination.description := "Compare recent vs historical" |} ];
      PhaseData.engineNuances := [
      ("google",
       "G: before:/after: for date filtering.");
      ("bing",
       "G: Use freshness parameter in API.");
      ("yandex",
       "G: date: with comparison operators.");
      ("archive",
       "G: CDX API for programmatic access.") ] |});
  (8%Z,
   {| PhaseData.id := "S8";
      PhaseData.name := "Language/Regional Lateral";
      PhaseData.purpose :=
        "Cross-language exploration, regional engines, non-English sources.";
      PhaseData.buildingBlocks := [
      {| BuildingBlock.code := "A";
         BuildingBlock.name := "Russian/CIS Sources";
         BuildingBlock.description :=
           "Search Russian-language and CIS region sources.";
         BuildingBlock.engines :=
           [
             ("yandex", [lit "`<0>` lang:ru"; lit "`<0>` domain:ru"]);
             ("google", [lit "`<0>` site:ru"]) ] |};
      {| BuildingBlock.code := "B";
         BuildingBlock.name := "Chinese Sources";
         BuildingBlock.description :=
           "Search Chinese-language sources.";
         BuildingBlock.engines :=
           [
             ("baidu", [lit "`<0>`"]);
             ("google", [lit "`<0>` site:cn"]) ] |};
      {| BuildingBlock.code := "C";
         BuildingBlock.name := "European Sources";
         BuildingBlock.description :=
           "Search European language sources.";
         BuildingBlock.engines :=
           [
             ("google", [lit "`<0>` (site:de OR site:fr OR site:es OR site:it)"]);
             ("yandex", [lit "`<0>` (domain:de | domain:fr | domain:es)"]) ] |};
      {| BuildingBlock.code := "D";
         BuildingBlock.name := "Academic Cross-Language";
         BuildingBlock.description :=
           "Academic sources in multiple languages.";
         BuildingBlock.engines :=
           [
             ("google", [lit "`<0>` (site:edu.* OR site:ac.* OR site:uni-*)"]);
             ("scholar", [lit "`<0>`"]) ] |} ];
      PhaseData.precombinations := [
      {| Precombination.code := "X";
         Precombination.name := "Global Sweep";
         Precombination.expandsTo := ["A"; "B"; "C"];
         Precombination.description := "All regional sources" |};
      {| Precombination.code := "Y";
         Precombination.name := "Academic Global";
         Precombination.expandsTo := ["A"; "D"];
         Precombination.description := "Russian + Academic" |} ];
      PhaseData.engineNuances := [
      ("yandex",
       "G: Strongest for Russian/CIS, lang: and domain: operators.");
      ("baidu",
       "G: Required for Chinese sources, different operator syntax.");
      ("google",
       "G: site:TLD for regional filtering.");
      ("scholar",
       "G: Cross-language academic search.") ] |}) ].

(** The filters of [getDefaultConfig] (src/config.ts), in the insertion order of its [Map]. *)
Definition DEFAULT_FILTERS : list (string * FilterConfig.t) :=
  [
    ("1",
     {| FilterConfig.code := "s"; FilterConfig.name := "SOCIAL";
        FilterConfig.google :=
          "-site:pinterest.* -site:twitter.com -site:facebook.com -site:reddit.com -site:quora.com";
        FilterConfig.bing :=
          "NOT site:pinterest.com NOT site:twitter.com NOT site:facebook.com NOT site:reddit.com";
        FilterConfig.yandex :=
          "-site:pinterest.com -site:twitter.com -site:facebook.com -site:reddit.com";
        FilterConfig.ddg :=
          "-site:pinterest.com -site:twitter.com -site:facebook.com -site:reddit.com" |});
    ("2",
     {| FilterConfig.code := "f"; FilterConfig.name := "FREE_HOSTING";
        FilterConfig.google :=
          "-site:blogspot.* -site:*.wixsite.com -site:weebly.com -site:tumblr.com -site:*.wordpress.com -site:sites.google.com";
        FilterConfig.bing :=
          "NOT site:blogspot.com NOT url:wixsite NOT url:weebly NOT site:tumblr.com";
        FilterConfig.yandex :=
          "-rhost:com.blogspot.* -rhost:com.wixsite.* -rhost:com.weebly.* -site:tumblr.com";
        FilterConfig.ddg :=
          "-blogspot -wixsite -weebly -tumblr" |});
    ("3",
     {| FilterConfig.code := "t"; FilterConfig.name := "SPAM_TLDS";
        FilterConfig.google :=
          "-site:.info -site:.xyz -site:.top -site:.click -site:.online -site:.site -site:.space -site:.icu -site:.buzz";
        FilterConfig.bing :=
          "NOT site:.info NOT site:.xyz NOT site:.top NOT site:.click NOT site:.online";
        FilterConfig.yandex :=
          "-domain:info -domain:xyz -domain:top -domain:click -domain:online";
        FilterConfig.ddg :=
          "-site:.info -site:.xyz -site:.top -site:.click -site:.online" |});
    ("4",
     {| FilterConfig.code := "u"; FilterConfig.name := "STRUCTURAL_CRUFT";
        FilterConfig.google :=
          "-inurl:/tag/ -inurl:/category/ -inurl:/page/ -inurl:/archive/ -inurl:?p= -inurl:?page=";
        FilterConfig.bing :=
          "NOT url:tag NOT url:category NOT url:page NOT url:archive";
        FilterConfig.yandex :=
          "-inurl:/tag/ -inurl:/category/ -inurl:/page/";
        FilterConfig.ddg :=
          "-inurl:/tag/ -inurl:/category/ -inurl:/page/" |});
    ("5",
     {| FilterConfig.code := "c"; FilterConfig.name := "COMMERCIAL";
        FilterConfig.google :=
          lit "-`affiliate` -`we may earn` -`as an amazon associate` -inurl:affiliate -inurl:sponsored";
        FilterConfig.bing :=
          lit "NOT `affiliate` NOT `we may earn` NOT inbody:`taboola` NOT inbody:`outbrain`";
        FilterConfig.yandex :=
          lit "-`affiliate` -`we may earn`";
        FilterConfig.ddg :=
          lit "-`affiliate` -`sponsored` -`commission`" |});
    ("6",
     {| FilterConfig.code := "l"; FilterConfig.name := "LISTICLES";
        FilterConfig.google :=
          lit "-intitle:`top 10` -intitle:`top 20` -intitle:`best of` -intitle:`ultimate guide`";
        FilterConfig.bing :=
          lit "NOT intitle:`top 10` NOT intitle:`best of`";
        FilterConfig.yandex :=
          lit "-title:`top 10` -title:`best of`";
        FilterConfig.ddg :=
          lit "-`top 10` -`best of` -`ultimate guide`" |});
    ("7",
     {| FilterConfig.code := "a"; FilterConfig.name := "AI_SLOP";
        FilterConfig.google :=
          lit "-`in this comprehensive guide` -`let's dive in` -`without further ado` -`in today's fast-paced world`";
        FilterConfig.bing :=
          lit "NOT `let's dive in` NOT `comprehensive guide`";
        FilterConfig.yandex :=
          lit "-`let's dive in` -`comprehensive guide`";
        FilterConfig.ddg :=
          lit "-`let's dive in` -`without further ado`" |}) ].

(** ** [getPhaseMenu] (src/phases.ts) *)

(** [PHASE_MENUS[phase]]. *)
Definition lookupPhaseData (phase : Z) : option PhaseData.t :=
  snd <$> find (fun entry => Z.eqb (fst entry) phase) PHASE_MENUS.

(** [PHASES[i]] for a number [i] holding an integer: [undefined] outside
    the array. *)
Definition lookupPhase (i : Z) : option Phase.t :=
  if Z.ltb i 0 then None else nth_error PHASES (Z.to_nat i).

(** [o?.field || fallback]. *)
Definition orElse (o : option string) (fallback : string) : string :=
  match o with
  | Some s => if truthy s then s else fallback
  | None => fallback
  end.

Definition getPhaseMenu (phase : Z) : PhaseMenu.t :=
  match lookupPhaseData phase with
  | None =>
      {| PhaseMenu.phase := phase;
         PhaseMenu.id := "S" +:+ numberToString phase;
         PhaseMenu.name := orElse (Phase.name <$> lookupPhase (phase - 1)) "Unknown";
         PhaseMenu.purpose := orElse (Phase.purpose <$> lookupPhase (phase - 1)) "Not defined";
         PhaseMenu.noiseFilters := NOISE_FILTERS;
         PhaseMenu.buildingBlocks := [];
         PhaseMenu.precombinations := [];
         PhaseMenu.engineNuances := [] |}
  | Some phaseData =>
      {| PhaseMenu.phase := phase;
         PhaseMenu.id := PhaseData.id phaseData;
         PhaseMenu.name := PhaseData.name phaseData;
         PhaseMenu.purpose := PhaseData.purpose phaseData;
         PhaseMenu.noiseFilters := NOISE_FILTERS;
         PhaseMenu.buildingBlocks := PhaseData.buildingBlocks phaseData;
         PhaseMenu.precombinations := PhaseData.precombinations phaseData;
         PhaseMenu.engineNuances := PhaseData.engineNuances phaseData |}
  end.

(** ** [getDefaultConfig] and [getActiveFilters] (src/config.ts) *)

Definition getDefaultConfig : FraviaConfig.t :=
  {| FraviaConfig.version := "5.0";
     FraviaConfig.filters := DEFAULT_FILTERS;
     FraviaConfig.phases := [] |}.

(** The object [codeToNumber] and the lookup [codeToNumber[char]]. *)
Definition codeToNumber : list (string * string) :=
  [ ("s", "1"); ("f", "2"); ("t", "3"); ("u", "4"); ("c", "5"); ("l", "6"); ("a", "7") ].

Definition lookupCode (char : ascii) : option string :=
  snd <$> find (fun entry => String.eqb (fst entry) (String char EmptyString)) codeToNumber.

(** One turn of the loop over the characters of [codes.toLowerCase()]. *)
Definition relaxStep (relaxedCodes : gset string) (char : ascii) : gset string :=
  match lookupCode char with
  | Some num => if truthy num then {[ num ]} ∪ relaxedCodes else relaxedCodes
  | None => relaxedCodes
  end.

Definition relaxedCodes (codes : string) : gset string :=
  foldl relaxStep ∅ (chars (toLowerCase codes)).

Definition validEngines : list string := [ "google"; "bing"; "yandex"; "ddg" ].

Definition targetEngine (engine : string) : string :=
  let engineKey := toLowerCase engine in
  if bool_decide (engineKey ∈ validEngines) then engineKey else "google".

(** [filter[targetEngine]] for one of the four dialects. *)
Definition filterValue (filter : FilterConfig.t) (target : string) : string :=
  if String.eqb target "google" then FilterConfig.google filter
  else if String.eqb target "bing" then FilterConfig.bing filter
  else if String.eqb target "yandex" then FilterConfig.yandex filter
  else if String.eqb target "ddg" then FilterConfig.ddg filter
  else "".

(** The array [exclusions] once the loop over [config.filters] is over. *)
Definition exclusions (relaxed : gset string) (config : FraviaConfig.t)
    (target : string) : list string :=
  flat_map
    (fun entry : string * FilterConfig.t =>
       let (num, filter) := entry in
       if bool_decide (num ∈ relaxed) then []
       else if truthy (filterValue filter target) then [filterValue filter target]
       else [])
    (FraviaConfig.filters config).

Definition getActiveFilters (codes : string) (config : FraviaConfig.t)
    (engine : string) : string :=
  join " " (exclusions (relaxedCodes codes) config (targetEngine engine)).

(** ** [buildQueries] (src/executor.ts) *)

(** [codes.replace(/[^A-Z]/g, "").split("")]. *)
Definition blockCodes (codes : string) : list string :=
  map (fun c => String c EmptyString) (filter (fun c => isUpper c = true) (chars codes)).

(** [Set.prototype.add] on a set kept in insertion order. *)
Definition setAdd (s : list string) (x : string) : list string :=
  if bool_decide (x ∈ s) then s else s ++ [x].

(** The loop that expands the precombinations. *)
Definition expandStep (menu : PhaseMenu.t) (expandedCodes : list string)
    (code : string) : list string :=
  match find (fun p => String.eqb (Precombination.code p) code)
             (PhaseMenu.precombinations menu) with
  | Some precombo => foldl setAdd expandedCodes (Precombination.expandsTo precombo)
  | None => setAdd expandedCodes code
  end.

Definition expandedCodes (menu : PhaseMenu.t) (codes : string) : list string :=
  foldl (expandStep menu) [] (blockCodes codes).

(** [topics[0]] where it is a replacement text: [undefined] becomes the
    text "undefined". *)
Definition primaryTopic (topics : list string) : string :=
  match topics with
  | topic :: _ => topic
  | [] => "undefined"
  end.

(** The [topics.forEach] of the loop body, from index [j] on. *)
Fixpoint replaceTopics (j : nat) (topics : list string) (query : string) : string :=
  match topics with
  | [] => query
  | topic :: rest => replaceTopics (S j) rest (replace (topicPlaceholder j) topic query)
  end.

(** The query of one turn of the innermost loop, before the hygiene
    string is appended. *)
Definition substituteTopics (template : string) (topics : list string) : string :=
  replace anyPlaceholder (primaryTopic topics) (replaceTopics 0 topics template).

Definition appendHygiene (query hygieneString : string) : string :=
  if truthy hygieneString then query +:+ " " +:+ hygieneString else query.

(** The queries pushed for one template: one per topic index [i]. *)
Definition templateQueries (phase : Z) (topics : list string) (code engine : string)
    (hygieneString template : string) : list Query.t :=
  map (fun i : nat =>
         {| Query.engine := engine;
            Query.query := appendHygiene (substituteTopics template topics) hygieneString;
            Query.phase := phase;
            Query.blockCode := code |})
      (seq 0 (length topics)).

(** The queries pushed for one entry of [Object.entries(block.engines)]. *)
Definition engineQueries (phase : Z) (topics : list string) (codes : string)
    (config : FraviaConfig.t) (code : string) (entry : string * list string)
    : list Query.t :=
  let (engine, templates) := entry in
  let hygieneString := getActiveFilters codes config engine in
  flat_map (templateQueries phase topics code engine hygieneString) templates.

(** The queries pushed for one expanded code. *)
Definition blockQueries (menu : PhaseMenu.t) (phase : Z) (topics : list string)
    (codes : string) (config : FraviaConfig.t) (code : string) : list Query.t :=
  match find (fun b => String.eqb (BuildingBlock.code b) code)
             (PhaseMenu.buildingBlocks menu) with
  | None => []
  | Some block =>
      flat_map (engineQueries phase topics codes config code) (BuildingBlock.engines block)
  end.

(** The array [queries] before deduplication. *)
Definition producedQueries (menu : PhaseMenu.t) (phase : Z) (topics : list string)
    (codes : string) (config : FraviaConfig.t) : list Query.t :=
  flat_map (blockQueries menu phase topics codes config) (expandedCodes menu codes).

Definition queryKey (q : Query.t) : string :=
  Query.engine q +:+ ":" +:+ Query.query q.

(** The final [queries.filter] with its set [seen]. *)
Fixpoint dedupFrom (seen : gset string) (queries : list Query.t) : list Query.t :=
  match queries with
  | [] => []
  | q :: rest =>
      if bool_decide (queryKey q ∈ seen) then dedupFrom seen rest
      else q :: dedupFrom ({[ queryKey q ]} ∪ seen) rest
  end.

Definition dedup (queries : list Query.t) : list Query.t := dedupFrom ∅ queries.

Definition buildQueries (phase : Z) (topics : list string) (codes : string)
    (config : FraviaConfig.t) : list Query.t :=
  let menu := getPhaseMenu phase in
  dedup (producedQueries menu phase topics codes config).

(** ** Definitions used to state the properties *)

(** The pair the specification deduplicates by. *)
Definition pairOf (q : Query.t) : string * string := (Query.engine q, Query.query q).

Definition hasColon (s : string) : bool := existsb (fun c => Ascii.eqb c ":") (chars s).

(** Every building block of the table, phase after phase. *)
Definition allBlocks : list BuildingBlock.t :=
  flat_map (fun entry => PhaseData.buildingBlocks (snd entry)) PHASE_MENUS.

Definition engineNamesOk (block : BuildingBlock.t) : bool :=
  forallb (fun entry => negb (hasColon (fst entry))) (BuildingBlock.engines block).

(** The query pushed for a template of [engine] in the block [code]. *)
Definition queryFor (phase : Z) (topics : list string) (codes : string)
    (config : FraviaConfig.t) (code engine template : string) : Query.t :=
  {| Query.engine := engine;
     Query.query :=
       appendHygiene (substituteTopics template topics)
                     (getActiveFilters codes config engine);
     Query.phase := phase;
     Query.blockCode := code |}.

(** The configuration without the filter stored under the key [num]. *)
Definition dropFilter (num : string) (config : FraviaConfig.t) : FraviaConfig.t :=
  {| FraviaConfig.version := FraviaConfig.version config;
     FraviaConfig.filters :=
       filter (fun entry => fst entry ≠ num) (FraviaConfig.filters config);
     FraviaConfig.phases := FraviaConfig.phases config |}.

(** The clause of every filter of the configuration for a dialect, in the
    order of the table. *)
Definition allClauses (config : FraviaConfig.t) (target : string) : list string :=
  (fun entry => filterValue (snd entry) target) <$> FraviaConfig.filters config.

Definition pairEqb (p q : string * string) : bool :=
  String.eqb (fst p) (fst q) && String.eqb (snd p) (snd q).

(** No pair of [l1] occurs in [l2], as a computation. *)
Definition disjointPairs (l1 l2 : list (string * string)) : bool :=
  forallb (fun pr => negb (existsb (pairEqb pr) l2)) l1.

(** The substitution as the specification words it: for every topic index,
    in order, every occurrence of its placeholder replaced by exactly the
    text of the topic, then every placeholder left replaced by exactly the
    text of the primary topic. *)
Fixpoint replaceTopicsSpec (j : nat) (topics : list string) (query : string) : string :=
  match topics with
  | [] => query
  | topic :: rest =>
      replaceTopicsSpec (S j) rest (replaceVerbatim (topicPlaceholder j) topic query)
  end.

Definition substituteSpec (template : string) (topics : list string) : string :=
  replaceVerbatim anyPlaceholder (primaryTopic topics) (replaceTopicsSpec 0 topics template).

(** The (block code, engine, template) triples the loops of [buildQueries]
    visit, in the order they visit them. *)
Definition blockTemplates (menu : PhaseMenu.t) (code : string)
    : list (string * string * string) :=
  match find (fun b => String.eqb (BuildingBlock.code b) code)
             (PhaseMenu.buildingBlocks menu) with
  | None => []
  | Some block =>
      flat_map (fun entry : string * list string =>
                  map (fun template => (code, fst entry, template)) (snd entry))
               (BuildingBlock.engines block)
  end.

Definition matchedTemplates (menu : PhaseMenu.t) (codes : string)
    : list (string * string * string) :=
  flat_map (blockTemplates menu) (expandedCodes menu codes).

(** What a well-formed pair of block and precombination tables is: the
    codes of the blocks are distinct, those of the precombinations are
    distinct and none of them is the code of a block, and every
    constituent of a precombination is the code of a block. *)
Definition menuWellFormed (blocks : list BuildingBlock.t)
    (precombos : list Precombination.t) : Prop :=
  NoDup (BuildingBlock.code <$> blocks) ∧
  NoDup (Precombination.code <$> precombos) ∧
  Forall (fun p => Precombination.code p ∉ BuildingBlock.code <$> blocks) precombos ∧
  Forall (fun p => Forall (fun c => c ∈ BuildingBlock.code <$> blocks)
                          (Precombination.expandsTo p))
         precombos.

(** The codes one selection letter stands for. *)
Definition expansion (menu : PhaseMenu.t) (code : string) : list string :=
  match find (fun p => String.eqb (Precombination.code p) code)
             (PhaseMenu.precombinations menu) with
  | Some precombo => Precombination.expandsTo precombo
  | None => [code]
  end.


(** ** [encodeURIComponent], [getSearchUrl] (src/executor.ts) and
    [buildSearchUrl] (src/engines.ts) *)

Definition isLower (c : ascii) : bool :=
  (97 <=? nat_of_ascii c)%nat && (nat_of_ascii c <=? 122)%nat.

(** The characters [encodeURIComponent] leaves as they are: letters,
    digits and the marks of its unreserved set. *)
Definition isUnreserved (c : ascii) : bool :=
  isUpper c || isLower c || isDigit c || existsb (Ascii.eqb c) (chars "-_.!~*'()").

Definition hexDigit (n : nat) : ascii := nth n (chars "0123456789ABCDEF") "0"%char.

(** One byte as a percent sign and two upper-case hexadecimal digits. *)
Definition percentByte (byte : nat) : string :=
  String "%" (String (hexDigit (byte / 16)) (String (hexDigit (byte mod 16)) EmptyString)).

(** The UTF-8 bytes of a character up to U+00FF. *)
Definition utf8 (code : nat) : list nat :=
  if (code <? 128)%nat then [code] else [192 + code / 64; 128 + code mod 64].

Definition encodeChar (c : ascii) : string :=
  if isUnreserved c then String c EmptyString
  else String.concat "" (percentByte <$> utf8 (nat_of_ascii c)).

(** [encodeURIComponent] on strings of characters up to U+00FF, for which
    it does not throw. *)
Fixpoint encodeURIComponent (s : string) : string :=
  match s with
  | EmptyString => EmptyString
  | String c rest => encodeChar c +:+ encodeURIComponent rest
  end.

Definition getSearchUrl (engine query : string) : string :=
  let encoded := encodeURIComponent query in
  let key := toLowerCase engine in
  if String.eqb key "google" then "https://www.google.com/search?q=" +:+ encoded
  else if String.eqb key "bing" then "https://www.bing.com/search?q=" +:+ encoded
  else if String.eqb key "yandex" then "https://yandex.com/search/?text=" +:+ encoded
  else if String.eqb key "duckduckgo" || String.eqb key "ddg"
       then "https://duckduckgo.com/?q=" +:+ encoded
  else if String.eqb key "brave" then "https://search.brave.com/search?q=" +:+ encoded
  else if String.eqb key "baidu" then "https://www.baidu.com/s?wd=" +:+ encoded
  else if String.eqb key "github" then "https://github.com/search?q=" +:+ encoded
  else if String.eqb key "scholar" then "https://scholar.google.com/scholar?q=" +:+ encoded
  else if String.eqb key "archive" || String.eqb key "wayback"
       then "https://web.archive.org/web/*/" +:+ encoded
  else "https://www.google.com/search?q=" +:+ encoded.

Module Selectors.
Record t : Type := mk { result : string; title : string; url : string; snippet : string }.
End Selectors.

(** The field [type] is a string: [loadEngines] stores what the file has
    under a cast to the two expected values. *)
Module EngineConfig.
Record t : Type := mk
  { id : string;
    type : string;
    name : string;
    baseUrl : string;
    selectors : Selectors.t }.
End EngineConfig.

Definition buildSearchUrl (engine : EngineConfig.t) (query : string) : string :=
  let encodedQuery := encodeURIComponent query in
  if String.eqb (EngineConfig.type engine) "browser"
  then EngineConfig.baseUrl engine +:+ encodedQuery
  else
    let id := EngineConfig.id engine in
    if String.eqb id "google" || String.eqb id "bing" || String.eqb id "brave"
       || String.eqb id "github"
    then EngineConfig.baseUrl engine +:+ "?q=" +:+ encodedQuery
    else if String.eqb id "gitlab"
    then EngineConfig.baseUrl engine +:+ "?search=" +:+ encodedQuery
    else if String.eqb id "archive"
    then "https://web.archive.org/cdx/search/cdx?url=*" +:+ encodedQuery
         +:+ "*&output=json&limit=10"
    else EngineConfig.baseUrl engine +:+ encodedQuery.

(** A reader of one encoded character, for the proof that the encoding
    loses nothing. *)
Definition hexValue (c : ascii) : nat :=
  let n := nat_of_ascii c in if (n <? 58)%nat then n - 48 else n - 55.

Definition decodeHead (s : string) : option (ascii * string) :=
  match s with
  | EmptyString => None
  | String c rest =>
      if Ascii.eqb c "%" then
        match rest with
        | String h1 (String h2 rest') =>
            let byte := hexValue h1 * 16 + hexValue h2 in
            if (byte <? 128)%nat then Some (ascii_of_nat byte, rest')
            else
              match rest' with
              | String _ (String h3 (String h4 rest'')) =>
                  Some (ascii_of_nat ((byte - 192) * 64 + (hexValue h3 * 16 + hexValue h4 - 128)),
                        rest'')
              | _ => None
              end
        | _ => None
        end
      else Some (c, rest)
  end.



(** ** The execution plan (src/engines.ts, src/executor.ts)

    [loadEngines] reads a file; the functions below take the map it
    returns, in insertion order, as the argument [engines]. *)

Module SearchRequest.
Record t : Type := mk { engine : string; query : string; maxResults : option Z }.
End SearchRequest.

Module BrowserSearchInstruction.
Record t : Type := mk
  { engine : string;
    navigateUrl : string;
    waitTime : Z;
    selectors : Selectors.t;
    instructions : list string }.
End BrowserSearchInstruction.

Module ApiInstruction.
Record t : Type := mk
  { engine : string;
    method : string;
    url : string;
    headers : list (string * string);
    notes : string }.
End ApiInstruction.

Module QueryResult.
Record t : Type := mk
  { engine : string;
    query : string;
    title : string;
    url : string;
    snippet : string;
    timestamp : string }.
End QueryResult.

Definition getDefaultEngines : list (string * EngineConfig.t) :=
  [ ("google",
     {| EngineConfig.id := "google"; EngineConfig.type := "api";
        EngineConfig.name := "Google Custom Search";
        EngineConfig.baseUrl := "https://www.googleapis.com/customsearch/v1";
        EngineConfig.selectors := Selectors.mk "items" "title" "link" "snippet" |});
    ("bing",
     {| EngineConfig.id := "bing"; EngineConfig.type := "api";
        EngineConfig.name := "Bing Search";
        EngineConfig.baseUrl := "https://api.bing.microsoft.com/v7.0/search";
        EngineConfig.selectors := Selectors.mk "webPages.value" "name" "url" "snippet" |});
    ("searx",
     {| EngineConfig.id := "searx"; EngineConfig.type := "browser";
        EngineConfig.name := "Searx";
        EngineConfig.baseUrl := "https://searx.be/search?q=";
        EngineConfig.selectors :=
          Selectors.mk ".result" ".result h3 a" ".result .url" ".result .content" |}) ].

(** [engines.get(key)]. *)
Definition enginesGet (engines : list (string * EngineConfig.t)) (key : string)
    : option EngineConfig.t :=
  snd <$> find (fun entry => String.eqb (fst entry) key) engines.

(** The instruction pushed for one request, if any. *)
Definition browserInstruction (engines : list (string * EngineConfig.t))
    (req : SearchRequest.t) : list BrowserSearchInstruction.t :=
  match enginesGet engines (SearchRequest.engine req) with
  | None => []
  | Some engine =>
      if negb (String.eqb (EngineConfig.type engine) "browser") then []
      else
        let url := buildSearchUrl engine (SearchRequest.query req) in
        let selectors := EngineConfig.selectors engine in
        [ {| BrowserSearchInstruction.engine := EngineConfig.id engine;
             BrowserSearchInstruction.navigateUrl := url;
             BrowserSearchInstruction.waitTime := 3;
             BrowserSearchInstruction.selectors := selectors;
             BrowserSearchInstruction.instructions :=
               [ lit "1. browser_navigate(url=`" +:+ url +:+ lit "`)";
                 "2. browser_wait_for(time=3)";
                 "3. browser_snapshot()";
                 "4. Extract results using selectors:";
                 "   - Results container: " +:+ Selectors.result selectors;
                 "   - Title: " +:+ Selectors.title selectors;
                 "   - URL: " +:+ Selectors.url selectors;
                 "   - Snippet: " +:+ Selectors.snippet selectors ] |} ]
  end.

Definition generateBrowserInstructions (engines : list (string * EngineConfig.t))
    (requests : list SearchRequest.t) : list BrowserSearchInstruction.t :=
  flat_map (browserInstruction engines) requests.

(** The [switch] on the identifier: the headers and the notes. *)
Definition apiHeaders (id : string) : list (string * string) :=
  if String.eqb id "bing" then [ ("Ocp-Apim-Subscription-Key", "${BING_API_KEY}") ]
  else if String.eqb id "brave" then [ ("X-Subscription-Token", "${BRAVE_API_KEY}") ]
  else if String.eqb id "github"
  then [ ("Authorization", "token ${GITHUB_TOKEN}"); ("Accept", "application/vnd.github.v3+json") ]
  else if String.eqb id "gitlab" then [ ("PRIVATE-TOKEN", "${GITLAB_TOKEN}") ]
  else [].

Definition apiNotes (id : string) : string :=
  if String.eqb id "google" then "Requires GOOGLE_API_KEY and GOOGLE_CX environment variables"
  else if String.eqb id "bing" then "Requires BING_API_KEY environment variable"
  else if String.eqb id "brave" then "Requires BRAVE_API_KEY environment variable"
  else if String.eqb id "github" then "Optional GITHUB_TOKEN for higher rate limits"
  else if String.eqb id "gitlab" then "Optional GITLAB_TOKEN for private projects"
  else if String.eqb id "archive" then "No authentication required"
  else "".

Definition apiInstruction (engines : list (string * EngineConfig.t))
    (req : SearchRequest.t) : list ApiInstruction.t :=
  match enginesGet engines (SearchRequest.engine req) with
  | None => []
  | Some engine =>
      if negb (String.eqb (EngineConfig.type engine) "api") then []
      else
        [ {| ApiInstruction.engine := EngineConfig.id engine;
             ApiInstruction.method := "GET";
             ApiInstruction.url := buildSearchUrl engine (SearchRequest.query req);
             ApiInstruction.headers := apiHeaders (EngineConfig.id engine);
             ApiInstruction.notes := apiNotes (EngineConfig.id engine) |} ]
  end.

Definition generateApiInstructions (engines : list (string * EngineConfig.t))
    (requests : list SearchRequest.t) : list ApiInstruction.t :=
  flat_map (apiInstruction engines) requests.

(** [String.prototype.toUpperCase], exact on ASCII. *)
Definition upperChar (c : ascii) : ascii :=
  if isLower c then ascii_of_nat (nat_of_ascii c - 32) else c.

Fixpoint toUpperCase (s : string) : string :=
  match s with
  | EmptyString => EmptyString
  | String c rest => String (upperChar c) (toUpperCase rest)
  end.

Definition newline : string := String "010" EmptyString.

Definition lowerHexDigit (n : nat) : ascii := nth n (chars "0123456789abcdef") "0"%char.

(** The quoting of a string by [JSON.stringify]. *)
Definition jsonQuoteChar (c : ascii) : string :=
  let n := nat_of_ascii c in
  if Ascii.eqb c dquote then String "\" (String dquote EmptyString)
  else if Ascii.eqb c "\" then "\\"
  else if (n =? 8)%nat then "\b"
  else if (n =? 9)%nat then "\t"
  else if (n =? 10)%nat then "\n"
  else if (n =? 12)%nat then "\f"
  else if (n =? 13)%nat then "\r"
  else if (n <? 32)%nat
       then "\u00" +:+ String (lowerHexDigit (n / 16)) (String (lowerHexDigit (n mod 16)) EmptyString)
  else String c EmptyString.

Fixpoint jsonQuoteBody (s : string) : string :=
  match s with
  | EmptyString => EmptyString
  | String c rest => jsonQuoteChar c +:+ jsonQuoteBody rest
  end.

Definition jsonQuote (s : string) : string :=
  String dquote (jsonQuoteBody s) +:+ String dquote EmptyString.

(** [JSON.stringify] of an object whose values are strings. *)
Definition jsonStringify (record : list (string * string)) : string :=
  "{" +:+ join "," ((fun entry => jsonQuote (fst entry) +:+ ":" +:+ jsonQuote (snd entry)) <$> record)
      +:+ "}".

(** The two groups of [executeQueries]: a query whose engine is not
    configured goes with the browser queries. *)
Definition isBrowserQuery (engines : list (string * EngineConfig.t)) (q : Query.t) : bool :=
  match enginesGet engines (Query.engine q) with
  | None => true
  | Some engine => String.eqb (EngineConfig.type engine) "browser"
  end.

Definition toRequest (q : Query.t) : SearchRequest.t :=
  {| SearchRequest.engine := Query.engine q;
     SearchRequest.query := Query.query q;
     SearchRequest.maxResults := None |}.

(** [results.push(r)] where the time stamp of [r] is read when it is
    pushed: [now k] is the time stamp of the result pushed after [k]
    others. *)
Definition pushResult (now : nat → string) (results : list QueryResult.t)
    (make : string → QueryResult.t) : list QueryResult.t :=
  results ++ [make (now (length results))].

Definition browserResult (inst : BrowserSearchInstruction.t) (timestamp : string)
    : QueryResult.t :=
  {| QueryResult.engine := BrowserSearchInstruction.engine inst;
     QueryResult.query := BrowserSearchInstruction.navigateUrl inst;
     QueryResult.title := "[BROWSER] " +:+ BrowserSearchInstruction.engine inst;
     QueryResult.url := BrowserSearchInstruction.navigateUrl inst;
     QueryResult.snippet := join newline (BrowserSearchInstruction.instructions inst);
     QueryResult.timestamp := timestamp |}.

Definition apiResult (inst : ApiInstruction.t) (timestamp : string) : QueryResult.t :=
  {| QueryResult.engine := ApiInstruction.engine inst;
     QueryResult.query := ApiInstruction.url inst;
     QueryResult.title := "[API] " +:+ ApiInstruction.engine inst;
     QueryResult.url := ApiInstruction.url inst;
     QueryResult.snippet :=
       "Method: " +:+ ApiInstruction.method inst +:+ newline
       +:+ "Headers: " +:+ jsonStringify (ApiInstruction.headers inst) +:+ newline
       +:+ ApiInstruction.notes inst;
     QueryResult.timestamp := timestamp |}.

Definition fallbackResult (q : Query.t) (timestamp : string) : QueryResult.t :=
  {| QueryResult.engine := Query.engine q;
     QueryResult.query := Query.query q;
     QueryResult.title := "[" +:+ toUpperCase (Query.engine q) +:+ "] Query prepared";
     QueryResult.url := getSearchUrl (Query.engine q) (Query.query q);
     QueryResult.snippet := "Execute manually: " +:+ Query.query q;
     QueryResult.timestamp := timestamp |}.

(** One turn of the last loop of [executeQueries]. *)
Definition fallbackStep (now : nat → string) (results : list QueryResult.t) (q : Query.t)
    : list QueryResult.t :=
  if existsb (fun r => String.eqb (QueryResult.engine r) (Query.engine q)) results
  then results
  else pushResult now results (fallbackResult q).

(** The results of [executeQueries] before its last loop: the browser
    plan, then the API plan. *)
Definition plannedResults (engines : list (string * EngineConfig.t)) (now : nat → string)
    (queries : list Query.t) : list QueryResult.t :=
  let browserQueries := filter (fun q => isBrowserQuery engines q = true) queries in
  let apiQueries := filter (fun q => isBrowserQuery engines q = false) queries in
  let results := [] in
  let results :=
    if (0 <? length browserQueries)%nat
    then foldl (fun results inst => pushResult now results (browserResult inst)) results
               (generateBrowserInstructions engines (toRequest <$> browserQueries))
    else results in
  let results :=
    if (0 <? length apiQueries)%nat
    then foldl (fun results inst => pushResult now results (apiResult inst)) results
               (generateApiInstructions engines (toRequest <$> apiQueries))
    else results in
  results.

Definition executeQueries (engines : list (string * EngineConfig.t)) (now : nat → string)
    (queries : list Query.t) : list QueryResult.t :=
  foldl (fallbackStep now) (plannedResults engines now queries) queries.

Definition hasEngine (engine : string) (r : QueryResult.t) : bool :=
  String.eqb (QueryResult.engine r) engine.

(** ** Reading the configuration files (src/config.ts, src/engines.ts)

    The files are read by [loadConfig] and [loadEngines]; the functions
    below take the text that was read. *)

(** White space and line terminators up to U+00FF, what
    [String.prototype.trim] removes. *)
Definition isWhiteSpace (c : ascii) : bool :=
  let n := nat_of_ascii c in
  ((9 <=? n)%nat && (n <=? 13)%nat) || (n =? 32)%nat || (n =? 160)%nat.

Fixpoint trimStart (s : string) : string :=
  match s with
  | EmptyString => EmptyString
  | String c rest => if isWhiteSpace c then trimStart rest else s
  end.

(** The string without its trailing white space. *)
Fixpoint trimEnd (s : string) : string :=
  match s with
  | EmptyString => EmptyString
  | String c rest =>
      match trimEnd rest with
      | EmptyString => if isWhiteSpace c then EmptyString else String c EmptyString
      | rest' => String c rest'
      end
  end.

Definition trim (s : string) : string := trimEnd (trimStart s).

(** [s.split(/\r?\n/)]: [line] is the line being read, in reverse. *)
Fixpoint splitLinesFrom (line : list ascii) (s : string) : list string :=
  match s with
  | EmptyString => [string_of_list_ascii (rev line)]
  | String c rest =>
      if Ascii.eqb c "010" then string_of_list_ascii (rev line) :: splitLinesFrom [] rest
      else if Ascii.eqb c "013" then
        match rest with
        | String d rest' =>
            if Ascii.eqb d "010"
            then string_of_list_ascii (rev line) :: splitLinesFrom [] rest'
            else splitLinesFrom (c :: line) rest
        | EmptyString => splitLinesFrom (c :: line) rest
        end
      else splitLinesFrom (c :: line) rest
  end.

Definition splitLines (s : string) : list string := splitLinesFrom [] s.

(** [s.split(sep)] for a separator of one character. *)
Fixpoint splitFrom (sep : ascii) (part : list ascii) (s : string) : list string :=
  match s with
  | EmptyString => [string_of_list_ascii (rev part)]
  | String c rest =>
      if Ascii.eqb c sep then string_of_list_ascii (rev part) :: splitFrom sep [] rest
      else splitFrom sep (c :: part) rest
  end.

Definition split (sep : ascii) (s : string) : list string := splitFrom sep [] s.

Definition startsWith (s pat : string) : bool := String.prefix pat s.

Definition endsWith (s pat : string) : bool :=
  (String.length pat <=? String.length s)%nat
  && String.eqb (substring (String.length s - String.length pat) (String.length pat) s) pat.

(** [s.slice(start, end)] with the relative positions of ECMAScript. *)
Definition relativeIndex (len : nat) (i : Z) : nat :=
  if Z.ltb i 0 then Z.to_nat (Z.max (Z.of_nat len + i) 0) else Nat.min (Z.to_nat i) len.

Definition slice (s : string) (start stop : Z) : string :=
  let len := String.length s in
  let from := relativeIndex len start in
  let to := relativeIndex len stop in
  substring from (to - from) s.

(** [s.slice(start)]. *)
Definition sliceFrom (s : string) (start : Z) : string :=
  let len := String.length s in
  let from := relativeIndex len start in
  substring from (len - from) s.

(** [s.indexOf(c)] for one character: no index where the source has -1. *)
Fixpoint indexOf (c : ascii) (s : string) : option nat :=
  match s with
  | EmptyString => None
  | String d rest => if Ascii.eqb d c then Some 0 else S <$> indexOf c rest
  end.

(** [/^S\d+$/.test(s)]. *)
Definition isPhaseSection (s : string) : bool :=
  match s with
  | String c rest =>
      Ascii.eqb c "S" && negb (String.eqb rest "") && forallb isDigit (chars rest)
  | EmptyString => false
  end.

(** A regular expression that is a plain text, as [/-site:/g]. *)
Definition literalPattern (pat : string) : Matcher := fun s =>
  if String.prefix pat s then Some (String.length pat) else None.

(** [Map.prototype.set]: the value of a key that is present is replaced
    where it stands, a new key is added at the end. *)
Fixpoint mapSet {V} (m : list (string * V)) (key : string) (value : V) : list (string * V) :=
  match m with
  | [] => [(key, value)]
  | (k, v) :: rest =>
      if String.eqb k key then (k, value) :: rest else (k, v) :: mapSet rest key value
  end.

Definition mapGet {V} (m : list (string * V)) (key : string) : option V :=
  snd <$> find (fun entry => String.eqb (fst entry) key) m.

(** *** [loadEngines] *)

Definition engineLine (engines : list (string * EngineConfig.t)) (line : string)
    : list (string * EngineConfig.t) :=
  let trimmed := trim line in
  if negb (truthy trimmed) || startsWith trimmed "#" then engines
  else
    match split "|" trimmed with
    | id :: type :: name :: baseUrl :: resultSel :: titleSel :: urlSel :: snippetSel :: _ =>
        mapSet engines id
          {| EngineConfig.id := id;
             EngineConfig.type := type;
             EngineConfig.name := name;
             EngineConfig.baseUrl := baseUrl;
             EngineConfig.selectors := Selectors.mk resultSel titleSel urlSel snippetSel |}
    | _ => engines
    end.

(** [loadEngines] on its first call: [file] is the text of engines.txt, or
    nothing when the file cannot be read. *)
Definition loadEngines (file : option string) : list (string * EngineConfig.t) :=
  match file with
  | None => getDefaultEngines
  | Some content => foldl engineLine [] (splitLines content)
  end.

(** *** [parseConfig] *)

Definition emptyPhase : PhaseConfig.t :=
  {| PhaseConfig.description := ""; PhaseConfig.nuance := ""; PhaseConfig.options := [] |}.

(** The state of the loop of [parseConfig].  [currentPhase] is the key
    under which the phase being filled is stored in [config.phases]: the
    object the source keeps in its variable is the one it has just stored
    there. *)
Module ParseState.
Record t : Type := mk
  { config : FraviaConfig.t;
    currentSection : string;
    currentPhase : option string }.
End ParseState.

Definition setVersion (config : FraviaConfig.t) (value : string) : FraviaConfig.t :=
  {| FraviaConfig.version := value;
     FraviaConfig.filters := FraviaConfig.filters config;
     FraviaConfig.phases := FraviaConfig.phases config |}.

Definition setFilters (config : FraviaConfig.t) (filters : list (string * FilterConfig.t))
    : FraviaConfig.t :=
  {| FraviaConfig.version := FraviaConfig.version config;
     FraviaConfig.filters := filters;
     FraviaConfig.phases := FraviaConfig.phases config |}.

Definition setPhases (config : FraviaConfig.t) (phases : list (string * PhaseConfig.t))
    : FraviaConfig.t :=
  {| FraviaConfig.version := FraviaConfig.version config;
     FraviaConfig.filters := FraviaConfig.filters config;
     FraviaConfig.phases := phases |}.

(** The bing and ddg renderings of a clause of the file. *)
Definition bingClause (value : string) : string :=
  replace (literalPattern (lit "-`")) (lit "NOT `")
    (replace (literalPattern "-intitle:") "NOT intitle:"
       (replace (literalPattern "-inurl:") "NOT url:"
          (replace (literalPattern "-site:") "NOT site:" value))).

Definition ddgClause (value : string) : string :=
  replace (literalPattern "-inurl:") "-inurl:"
    (replace (literalPattern "-site:") "-site:" value).

Definition filterEntry (config : FraviaConfig.t) (key value : string) : FraviaConfig.t :=
  match split "_" key with
  | code :: part :: parts =>
      setFilters config
        (mapSet (FraviaConfig.filters config) code
           {| FilterConfig.code := code;
              FilterConfig.name := join "_" (part :: parts);
              FilterConfig.google := value;
              FilterConfig.bing := bingClause value;
              FilterConfig.yandex := value;
              FilterConfig.ddg := ddgClause value |})
  | _ => config
  end.

Definition existingOption (phase : PhaseConfig.t) (optCode : string) : OptionConfig.t :=
  match mapGet (PhaseConfig.options phase) optCode with
  | Some existing => existing
  | None => {| OptionConfig.code := optCode; OptionConfig.description := "";
               OptionConfig.value := "" |}
  end.

Definition phaseEntry (phase : PhaseConfig.t) (key value : string) : PhaseConfig.t :=
  if String.eqb key "desc" then
    {| PhaseConfig.description := value;
       PhaseConfig.nuance := PhaseConfig.nuance phase;
       PhaseConfig.options := PhaseConfig.options phase |}
  else if String.eqb key "nuance" then
    {| PhaseConfig.description := PhaseConfig.description phase;
       PhaseConfig.nuance := value;
       PhaseConfig.options := PhaseConfig.options phase |}
  else if startsWith key "option_" && endsWith key "_desc" then
    let optCode := slice key 7 (-5) in
    let existing := existingOption phase optCode in
    {| PhaseConfig.description := PhaseConfig.description phase;
       PhaseConfig.nuance := PhaseConfig.nuance phase;
       PhaseConfig.options :=
         mapSet (PhaseConfig.options phase) optCode
           {| OptionConfig.code := OptionConfig.code existing;
              OptionConfig.description := value;
              OptionConfig.value := OptionConfig.value existing |} |}
  else if startsWith key "option_" && endsWith key "_val" then
    let optCode := slice key 7 (-4) in
    let existing := existingOption phase optCode in
    {| PhaseConfig.description := PhaseConfig.description phase;
       PhaseConfig.nuance := PhaseConfig.nuance phase;
       PhaseConfig.options :=
         mapSet (PhaseConfig.options phase) optCode
           {| OptionConfig.code := OptionConfig.code existing;
              OptionConfig.description := OptionConfig.description existing;
              OptionConfig.value := value |} |}
  else phase.

(** One turn of the loop over the lines. *)
Definition parseLine (st : ParseState.t) (line : string) : ParseState.t :=
  let config := ParseState.config st in
  let trimmed := trim line in
  if negb (truthy trimmed) || startsWith trimmed "#" then st
  else if startsWith trimmed "[" && endsWith trimmed "]" then
    let currentSection := slice trimmed 1 (-1) in
    if startsWith currentSection "S" && isPhaseSection currentSection then
      {| ParseState.config :=
           setPhases config (mapSet (FraviaConfig.phases config) currentSection emptyPhase);
         ParseState.currentSection := currentSection;
         ParseState.currentPhase := Some currentSection |}
    else
      {| ParseState.config := config;
         ParseState.currentSection := currentSection;
         ParseState.currentPhase := None |}
  else
    match indexOf "=" trimmed with
    | None => st
    | Some eqIndex =>
        let key := trim (slice trimmed 0 (Z.of_nat eqIndex)) in
        let value := trim (sliceFrom trimmed (Z.of_nat eqIndex + 1)) in
        let currentSection := ParseState.currentSection st in
        if String.eqb currentSection "meta" then
          if String.eqb key "version"
          then {| ParseState.config := setVersion config value;
                  ParseState.currentSection := currentSection;
                  ParseState.currentPhase := ParseState.currentPhase st |}
          else st
        else if String.eqb currentSection "filters" then
          {| ParseState.config := filterEntry config key value;
             ParseState.currentSection := currentSection;
             ParseState.currentPhase := ParseState.currentPhase st |}
        else
          match ParseState.currentPhase st with
          | None => st
          | Some phaseKey =>
              match mapGet (FraviaConfig.phases config) phaseKey with
              | None => st
              | Some phase =>
                  {| ParseState.config :=
                       setPhases config
                         (mapSet (FraviaConfig.phases config) phaseKey
                            (phaseEntry phase key value));
                     ParseState.currentSection := currentSection;
                     ParseState.currentPhase := ParseState.currentPhase st |}
              end
          end
    end.

Definition parseConfig (content : string) : FraviaConfig.t :=
  ParseState.config
    (foldl parseLine
       {| ParseState.config :=
            {| FraviaConfig.version := "5.0"; FraviaConfig.filters := [];
               FraviaConfig.phases := [] |};
          ParseState.currentSection := "";
          ParseState.currentPhase := None |}
       (splitLines content)).

(** [loadConfig]: [file] is the text of fravia_menu.conf, or nothing when
    the file cannot be read. *)
Definition loadConfig (file : option string) : FraviaConfig.t :=
  match file with
  | None => getDefaultConfig
  | Some content => parseConfig content
  end.

(** A query has an instruction when one of the two generators answers
    its request. *)
Definition hasInstruction (engines : list (string * EngineConfig.t)) (q : Query.t) : bool :=
  match browserInstruction engines (toRequest q), apiInstruction engines (toRequest q) with
  | [], [] => false
  | _, _ => true
  end.


(** A block with at least one template. *)
Definition hasTemplate (block : BuildingBlock.t) : bool :=
  existsb (fun entry : string * list string => negb (forallb (fun _ => false) (snd entry)))
          (BuildingBlock.engines block).

(** * Deduplication *)

Section Dedup.

Implicit Types (seen : gset string) (l : list Query.t) (q : Query.t).

Lemma dedupFrom_sublist seen l : sublist (dedupFrom seen l) l.
Proof.
  revert seen. induction l as [|q l IH]; intros seen; simpl.
  - constructor.
  - case_bool_decide.
    + apply sublist_cons, IH.
    + apply sublist_skip, IH.
Qed.

Lemma dedupFrom_first seen l q :
  q ∈ dedupFrom seen l →
  ∃ l1 l2, l = l1 ++ q :: l2 ∧ (queryKey q ∉ seen) ∧ (queryKey q ∉ queryKey <$> l1).
Proof.
  revert seen. induction l as [|p l IH]; intros seen; simpl.
  - intros H. by apply elem_of_nil in H.
  - case_bool_decide as Hp.
    + intros H. destruct (IH _ H) as (l1 & l2 & -> & Hs & Hl).
      exists (p :: l1), l2. split; [done|]. split; [done|].
      rewrite fmap_cons, not_elem_of_cons. split; [|done].
      intros Heq. rewrite Heq in Hs. done.
    + rewrite elem_of_cons. intros [->|H].
      * exists [], l. split; [done|]. split; [done|]. apply not_elem_of_nil.
      * destruct (IH _ H) as (l1 & l2 & -> & Hs & Hl).
        exists (p :: l1), l2. split; [done|].
        split; [set_solver|].
        rewrite fmap_cons, not_elem_of_cons. split; [set_solver|done].
Qed.

Lemma dedupFrom_NoDup seen l : NoDup (queryKey <$> dedupFrom seen l).
Proof.
  revert seen. induction l as [|p l IH]; intros seen; simpl.
  - constructor.
  - case_bool_decide as Hp; [apply IH|].
    rewrite fmap_cons. constructor; [|apply IH].
    rewrite list_elem_of_fmap. intros (q & Hk & Hq).
    apply dedupFrom_first in Hq as (_ & _ & _ & Hs & _). set_solver.
Qed.

Lemma dedupFrom_complete seen l q :
  q ∈ l → queryKey q ∉ seen →
  ∃ q', q' ∈ dedupFrom seen l ∧ queryKey q' = queryKey q.
Proof.
  revert seen. induction l as [|p l IH]; intros seen; simpl.
  - intros H. by apply elem_of_nil in H.
  - rewrite elem_of_cons. intros Hq Hs. case_bool_decide as Hp.
    + destruct Hq as [->|Hq]; [done|]. by apply IH.
    + destruct (decide (queryKey p = queryKey q)) as [Heq|Hne].
      * exists p. split; [apply elem_of_cons; by left|done].
      * destruct Hq as [->|Hq]; [done|].
        destruct (IH ({[queryKey p]} ∪ seen) Hq) as (q' & Hq' & Hk).
        { rewrite not_elem_of_union, not_elem_of_singleton. split; [congruence|done]. }
        exists q'. split; [apply elem_of_cons; by right|done].
Qed.

End Dedup.

(** * The shape of the produced queries *)

Section Produced.

Variables (menu : PhaseMenu.t) (phase : Z) (topics : list string) (codes : string)
          (config : FraviaConfig.t).

Lemma templateQueries_repeat code engine template :
  templateQueries phase topics code engine (getActiveFilters codes config engine) template
  = repeat (queryFor phase topics codes config code engine template) (length topics).
Proof.
  unfold templateQueries. generalize 0. induction (length topics) as [|n IH]; intros k.
  - reflexivity.
  - simpl. f_equal. apply IH.
Qed.

Lemma blockQueries_elem code q :
  q ∈ blockQueries menu phase topics codes config code →
  ∃ block engine templates template,
    block ∈ PhaseMenu.buildingBlocks menu ∧
    BuildingBlock.code block = code ∧
    (engine, templates) ∈ BuildingBlock.engines block ∧
    template ∈ templates ∧
    topics ≠ [] ∧
    q = queryFor phase topics codes config code engine template.
Proof.
  unfold blockQueries.
  destruct (find _ _) as [block|] eqn:Hfind; [|intros H; by apply elem_of_nil in H].
  apply find_some in Hfind as [Hin Hcode]. apply String.eqb_eq in Hcode.
  rewrite list_elem_of_In, in_flat_map. intros ([engine templates] & Hentry & Hq).
  simpl in Hq. apply in_flat_map in Hq as (template & Htpl & Hq).
  rewrite templateQueries_repeat in Hq. apply repeat_spec in Hq as Heq.
  exists block, engine, templates, template.
  rewrite !list_elem_of_In. repeat split; try done.
  intros Hnil. rewrite Hnil in Hq. simpl in Hq. done.
Qed.

Lemma producedQueries_elem q :
  q ∈ producedQueries menu phase topics codes config →
  ∃ code block engine templates template,
    code ∈ expandedCodes menu codes ∧
    block ∈ PhaseMenu.buildingBlocks menu ∧
    BuildingBlock.code block = code ∧
    (engine, templates) ∈ BuildingBlock.engines block ∧
    template ∈ templates ∧
    topics ≠ [] ∧
    q = queryFor phase topics codes config code engine template.
Proof.
  unfold producedQueries. rewrite list_elem_of_In, in_flat_map.
  intros (code & Hcode & Hq). apply list_elem_of_In in Hq.
  apply blockQueries_elem in Hq as (block & engine & templates & template & H).
  exists code, block, engine, templates, template.
  rewrite list_elem_of_In. tauto.
Qed.

End Produced.

(** * Engine names and the deduplication key *)

Lemma allBlocks_engineNamesOk : forallb engineNamesOk allBlocks = true.
Proof. vm_compute. reflexivity. Qed.

Lemma getPhaseMenu_blocks phase block :
  block ∈ PhaseMenu.buildingBlocks (getPhaseMenu phase) → block ∈ allBlocks.
Proof.
  unfold getPhaseMenu, lookupPhaseData.
  destruct (find _ PHASE_MENUS) as [[k data]|] eqn:Hfind; simpl.
  - apply find_some in Hfind as [Hin _]. rewrite !list_elem_of_In. intros Hb.
    unfold allBlocks. apply in_flat_map. exists (k, data). split; done.
  - intros H. by apply elem_of_nil in H.
Qed.

Lemma getPhaseMenu_engine_no_colon phase block engine templates :
  block ∈ PhaseMenu.buildingBlocks (getPhaseMenu phase) →
  (engine, templates) ∈ BuildingBlock.engines block →
  hasColon engine = false.
Proof.
  intros Hb He. apply getPhaseMenu_blocks, list_elem_of_In in Hb.
  pose proof allBlocks_engineNamesOk as Hall. rewrite forallb_forall in Hall.
  specialize (Hall _ Hb). unfold engineNamesOk in Hall. rewrite forallb_forall in Hall.
  apply list_elem_of_In in He. specialize (Hall _ He). simpl in Hall.
  by destruct (hasColon engine).
Qed.

Lemma queryKey_inj_no_colon e1 q1 e2 q2 :
  hasColon e1 = false → hasColon e2 = false →
  e1 +:+ ":" +:+ q1 = e2 +:+ ":" +:+ q2 → e1 = e2 ∧ q1 = q2.
Proof.
  revert e2. induction e1 as [|c1 e1 IH]; intros [|c2 e2]; simpl; intros H1 H2 Heq.
  - by injection Heq.
  - injection Heq as <- _. unfold hasColon in H2. simpl in H2. done.
  - injection Heq as -> _. unfold hasColon in H1. simpl in H1. done.
  - injection Heq as -> Heq. unfold hasColon in H1, H2. simpl in H1, H2.
    apply orb_false_elim in H1 as [_ H1]. apply orb_false_elim in H2 as [_ H2].
    destruct (IH e2 H1 H2 Heq) as [-> ->]. done.
Qed.

Lemma produced_engine_no_colon phase topics codes config q :
  q ∈ producedQueries (getPhaseMenu phase) phase topics codes config →
  hasColon (Query.engine q) = false.
Proof.
  intros Hq.
  apply producedQueries_elem in Hq
    as (code & block & engine & templates & template & _ & Hb & _ & He & _ & _ & ->).
  simpl. eapply getPhaseMenu_engine_no_colon; eassumption.
Qed.

Lemma produced_key_pair phase topics codes config p q :
  p ∈ producedQueries (getPhaseMenu phase) phase topics codes config →
  q ∈ producedQueries (getPhaseMenu phase) phase topics codes config →
  queryKey p = queryKey q → pairOf p = pairOf q.
Proof.
  intros Hp Hq Hk. apply produced_engine_no_colon in Hp, Hq.
  destruct (queryKey_inj_no_colon _ _ _ _ Hp Hq Hk) as [He Hqq].
  unfold pairOf. by rewrite He, Hqq.
Qed.

Lemma pairOf_queryKey p q : pairOf p = pairOf q → queryKey p = queryKey q.
Proof. unfold pairOf, queryKey. intros [= -> ->]. done. Qed.

Lemma buildQueries_sublist phase topics codes config :
  sublist (buildQueries phase topics codes config)
          (producedQueries (getPhaseMenu phase) phase topics codes config).
Proof. apply dedupFrom_sublist. Qed.

Lemma dedup_NoDup_pairs l : NoDup (pairOf <$> dedup l).
Proof.
  pose proof (dedupFrom_NoDup ∅ l) as Hk.
  replace (queryKey <$> dedupFrom ∅ l)
    with ((fun pr : string * string => fst pr +:+ ":" +:+ snd pr) <$> (pairOf <$> dedup l))
    in Hk.
  - by apply NoDup_fmap_1 in Hk.
  - rewrite <- list_fmap_compose. reflexivity.
Qed.

(** C3. The sequence [buildQueries] returns has no two elements with the
    same (engine, query) pair; it keeps the production order; each of its
    elements stands in the produced sequence at the first occurrence of its
    pair; and every produced pair has its element in the result. *)
Theorem buildQueries_unique_first_occurrence phase topics codes config :
  let produced := producedQueries (getPhaseMenu phase) phase topics codes config in
  let out := buildQueries phase topics codes config in
  NoDup (pairOf <$> out) ∧
  sublist out produced ∧
  (∀ q, q ∈ out →
        ∃ l1 l2, produced = l1 ++ q :: l2 ∧ (pairOf q ∉ pairOf <$> l1)) ∧
  (∀ p, p ∈ produced → ∃ q, q ∈ out ∧ pairOf q = pairOf p).
Proof.
  intros produced out. repeat split.
  - apply dedup_NoDup_pairs.
  - apply buildQueries_sublist.
  - intros q Hq. apply dedupFrom_first in Hq as (l1 & l2 & Heq & _ & Hl1).
    exists l1, l2. split; [done|].
    rewrite list_elem_of_fmap. intros (p & Hpair & Hp). apply Hl1.
    rewrite list_elem_of_fmap. exists p. split; [by apply pairOf_queryKey|done].
  - intros p Hp.
    destruct (dedupFrom_complete ∅ produced p Hp) as (q & Hq & Hk); [apply not_elem_of_empty|].
    exists q. split; [done|].
    eapply produced_key_pair; [|exact Hp|exact Hk].
    eapply elem_of_sublist; [exact Hq|apply buildQueries_sublist].
Qed.

(** * The phase catalog *)

Lemma configured_phases : fst <$> PHASE_MENUS = [1; 2; 3; 4; 5; 6; 7; 8]%Z.
Proof. reflexivity. Qed.

Lemma lookupPhaseData_unknown phase :
  ¬ (1 ≤ phase ≤ 8)%Z → lookupPhaseData phase = None.
Proof.
  intros Hout. unfold lookupPhaseData.
  destruct (find _ PHASE_MENUS) as [[k data]|] eqn:Hfind; [|reflexivity].
  apply find_some in Hfind as [Hin Hk]. simpl in Hk. apply Z.eqb_eq in Hk. subst k.
  assert (phase ∈ fst <$> PHASE_MENUS) as Hphase.
  { apply list_elem_of_fmap. exists (phase, data). split; [done|by apply list_elem_of_In]. }
  rewrite configured_phases in Hphase.
  repeat (apply elem_of_cons in Hphase as [->|Hphase]; [lia|]).
  by apply elem_of_nil in Hphase.
Qed.

Lemma producedQueries_no_blocks menu phase topics codes config :
  PhaseMenu.buildingBlocks menu = [] →
  producedQueries menu phase topics codes config = [].
Proof.
  intros Hnil. apply elem_of_nil_inv. intros q Hq.
  apply producedQueries_elem in Hq as (? & block & ? & ? & ? & _ & Hb & _).
  rewrite Hnil in Hb. by apply elem_of_nil in Hb.
Qed.

(** C6. For a phase number outside the configured set the catalog gives a
    menu without building blocks and without precombinations, and
    [buildQueries] returns the empty sequence, whatever the topics and the
    codes are. *)
Theorem buildQueries_unknown_phase phase topics codes config :
  ¬ (1 ≤ phase ≤ 8)%Z →
  PhaseMenu.buildingBlocks (getPhaseMenu phase) = [] ∧
  PhaseMenu.precombinations (getPhaseMenu phase) = [] ∧
  buildQueries phase topics codes config = [].
Proof.
  intros Hout. apply lookupPhaseData_unknown in Hout.
  assert (PhaseMenu.buildingBlocks (getPhaseMenu phase) = []) as Hblocks.
  { unfold getPhaseMenu. by rewrite Hout. }
  split; [exact Hblocks|]. split.
  - unfold getPhaseMenu. by rewrite Hout.
  - unfold buildQueries. by rewrite producedQueries_no_blocks.
Qed.

Lemma buildQueries_unknown_phase_999 :
  ¬ (1 ≤ 999 ≤ 8)%Z ∧
  PhaseMenu.buildingBlocks (getPhaseMenu 999) = [] ∧
  PhaseMenu.precombinations (getPhaseMenu 999) = [] ∧
  buildQueries 999 ["topic"] "A" getDefaultConfig = [].
Proof.
  split; [lia|]. apply (buildQueries_unknown_phase 999 ["topic"] "A" getDefaultConfig). lia.
Defined.

(** C9. For every integer [phase] the menu of [getPhaseMenu] has its
    phase field equal to the argument and the global table of the seven
    noise filters s, f, t, u, c, l, a as its filter list. *)
Theorem getPhaseMenu_well_formed (phase : Z) :
  PhaseMenu.phase (getPhaseMenu phase) = phase ∧
  PhaseMenu.noiseFilters (getPhaseMenu phase) = NOISE_FILTERS ∧
  NoiseFilter.code <$> NOISE_FILTERS = ["s"; "f"; "t"; "u"; "c"; "l"; "a"] ∧
  length NOISE_FILTERS = 7.
Proof.
  unfold getPhaseMenu. destruct (lookupPhaseData phase); simpl; repeat split; reflexivity.
Qed.


(** * The hygiene resolver *)

Lemma toLowerCase_app a b : toLowerCase (a +:+ b) = toLowerCase a +:+ toLowerCase b.
Proof. induction a as [|c a IH]; simpl; [done|by rewrite IH]. Qed.

Lemma chars_app a b : chars (a +:+ b) = chars a ++ chars b.
Proof. induction a as [|c a IH]; simpl; [done|by rewrite IH]. Qed.

Lemma chars_toLowerCase s : chars (toLowerCase s) = lowerChar <$> chars s.
Proof. induction s as [|c s IH]; simpl; [done|by rewrite IH]. Qed.

Lemma foldl_relaxStep_elem num l init :
  num ∈ foldl relaxStep init l ↔
  num ∈ init ∨ ∃ c, c ∈ l ∧ lookupCode c = Some num ∧ truthy num = true.
Proof.
  revert init. induction l as [|c l IH]; intros init; simpl.
  - split; [by left|]. intros [H|(c & Hc & _)]; [done|]. by apply elem_of_nil in Hc.
  - rewrite IH. unfold relaxStep at 1. split.
    + intros [Hinit|(d & Hd & Hnum)].
      * destruct (lookupCode c) as [n|] eqn:Hc; [|by left].
        destruct (truthy n) eqn:Ht; [|by left].
        apply elem_of_union in Hinit as [Hn|Hinit]; [|by left].
        apply elem_of_singleton in Hn as ->. right. exists c.
        split; [apply elem_of_cons; by left|done].
      * right. exists d. split; [apply elem_of_cons; by right|done].
    + intros [Hinit|(d & Hd & Hlook & Ht)].
      * left. destruct (lookupCode c) as [n|]; [|done].
        destruct (truthy n); [|done]. apply elem_of_union. by right.
      * apply elem_of_cons in Hd as [->|Hd].
        -- left. rewrite Hlook, Ht. apply elem_of_union. left. by apply elem_of_singleton.
        -- right. by exists d.
Qed.

Lemma relaxedCodes_elem num codes :
  num ∈ relaxedCodes codes ↔
  ∃ c, c ∈ chars codes ∧ lookupCode (lowerChar c) = Some num ∧ truthy num = true.
Proof.
  unfold relaxedCodes. rewrite foldl_relaxStep_elem, chars_toLowerCase. split.
  - intros [H|(c & Hc & Hnum)]; [by apply not_elem_of_empty in H|].
    apply list_elem_of_fmap in Hc as (d & -> & Hd). by exists d.
  - intros (c & Hc & Hnum). right. exists (lowerChar c).
    split; [by apply list_elem_of_fmap_2|done].
Qed.

Lemma lookupCode_truthy c num : lookupCode c = Some num → truthy num = true.
Proof.
  unfold lookupCode. destruct (find _ codeToNumber) as [[k n]|] eqn:Hfind; [|done].
  apply find_some in Hfind as [Hin _]. intros [= <-]. simpl.
  unfold codeToNumber in Hin. simpl in Hin.
  repeat (destruct Hin as [[= <- <-]|Hin]; [reflexivity|]). done.
Qed.

Lemma relaxedCodes_insert codes1 extra codes2 :
  relaxedCodes (codes1 +:+ codes2) ⊆ relaxedCodes (codes1 +:+ extra +:+ codes2).
Proof.
  intros num. rewrite !relaxedCodes_elem. intros (c & Hc & Hnum). exists c.
  split; [|done]. rewrite !chars_app, !elem_of_app in *. tauto.
Qed.

Lemma exclusions_length_mono (relaxed relaxed' : gset string) config target :
  relaxed ⊆ relaxed' →
  length (exclusions relaxed' config target) ≤ length (exclusions relaxed config target).
Proof.
  intros Hsub. unfold exclusions.
  induction (FraviaConfig.filters config) as [|[num filter] l IH]; simpl; [done|].
  rewrite !length_app.
  destruct (bool_decide (num ∈ relaxed)) eqn:Hnum.
  - apply bool_decide_eq_true in Hnum. rewrite (bool_decide_eq_true_2 _ (Hsub _ Hnum)).
    simpl. exact IH.
  - destruct (bool_decide (num ∈ relaxed')); simpl; [lia|].
    destruct (truthy _); simpl; lia.
Qed.

Lemma exclusions_none_relaxed config target :
  exclusions ∅ config target = filter (fun v => truthy v = true) (allClauses config target).
Proof.
  unfold exclusions, allClauses.
  induction (FraviaConfig.filters config) as [|[num filter] l IH]; [done|].
  rewrite fmap_cons, filter_cons, <- IH. cbn [flat_map snd].
  rewrite bool_decide_eq_false_2 by apply not_elem_of_empty.
  destruct (truthy _) eqn:Ht.
  - rewrite decide_True; done.
  - rewrite decide_False; [done|]. congruence.
Qed.

Lemma relaxedCodes_empty : relaxedCodes "" = ∅.
Proof. reflexivity. Qed.

Lemma targetEngine_valid engine :
  targetEngine engine = "google" ∨ targetEngine engine = "bing" ∨
  targetEngine engine = "yandex" ∨ targetEngine engine = "ddg".
Proof.
  unfold targetEngine. case_bool_decide as Hin; [|by left].
  unfold validEngines in Hin.
  repeat (apply elem_of_cons in Hin as [Hin|Hin]; [tauto|]).
  by apply elem_of_nil in Hin.
Qed.

(** C5. For a fixed engine the number of filters that contribute to the
    hygiene string does not grow when letters are added to the codes,
    wherever they are put; and for the empty codes the hygiene string is
    made of the clauses of all seven filters of the default table, none
    relaxed. *)
Theorem hygiene_monotone :
  (∀ config engine codes1 extra codes2,
      length (exclusions (relaxedCodes (codes1 +:+ extra +:+ codes2)) config
                         (targetEngine engine))
      ≤ length (exclusions (relaxedCodes (codes1 +:+ codes2)) config (targetEngine engine))) ∧
  (∀ config engine,
      exclusions (relaxedCodes "") config (targetEngine engine)
      = filter (fun v => truthy v = true) (allClauses config (targetEngine engine))) ∧
  (∀ engine,
      exclusions (relaxedCodes "") getDefaultConfig (targetEngine engine)
      = allClauses getDefaultConfig (targetEngine engine) ∧
      length (exclusions (relaxedCodes "") getDefaultConfig (targetEngine engine)) = 7 ∧
      getActiveFilters "" getDefaultConfig engine
      = join " " (allClauses getDefaultConfig (targetEngine engine))).
Proof.
  split; [|split].
  - intros. apply exclusions_length_mono, relaxedCodes_insert.
  - intros. rewrite relaxedCodes_empty. apply exclusions_none_relaxed.
  - intros engine. unfold getActiveFilters.
    destruct (targetEngine_valid engine) as [-> | [-> | [-> | ->]]];
      repeat split; vm_compute; reflexivity.
Qed.

Lemma exclusions_drop (relaxed : gset string) num config target :
  num ∈ relaxed →
  exclusions relaxed config target = exclusions relaxed (dropFilter num config) target.
Proof.
  intros Hnum. unfold exclusions, dropFilter. cbn [FraviaConfig.filters].
  induction (FraviaConfig.filters config) as [|[k filter] l IH]; [done|].
  rewrite filter_cons. cbn [flat_map fst]. destruct (decide (k ≠ num)) as [Hk|Hk].
  - cbn [flat_map]. by rewrite IH.
  - apply dec_stable in Hk. subst k. by rewrite (bool_decide_eq_true_2 _ Hnum).
Qed.

Lemma exclusions_singleton_drop num config target :
  exclusions {[ num ]} config target = exclusions ∅ (dropFilter num config) target.
Proof.
  unfold exclusions, dropFilter. cbn [FraviaConfig.filters].
  induction (FraviaConfig.filters config) as [|[k filter] l IH]; [done|].
  rewrite filter_cons. cbn [flat_map fst]. destruct (decide (k ≠ num)) as [Hk|Hk].
  - cbn [flat_map]. rewrite IH.
    rewrite (bool_decide_eq_false_2 (k ∈ ({[num]} : gset string)))
      by (by rewrite elem_of_singleton).
    by rewrite (bool_decide_eq_false_2 (k ∈ (∅ : gset string))) by apply not_elem_of_empty.
  - apply dec_stable in Hk. subst k.
    by rewrite (bool_decide_eq_true_2 (num ∈ ({[num]} : gset string)))
      by (by apply elem_of_singleton).
Qed.

Lemma relaxedCodes_A : relaxedCodes "A" = {[ "7" ]}.
Proof. reflexivity. Qed.

Lemma relaxedCodes_C : relaxedCodes "C" = {[ "5" ]}.
Proof. reflexivity. Qed.

Lemma buildQueries_elem phase topics codes config q :
  q ∈ buildQueries phase topics codes config →
  ∃ block templates template,
    block ∈ PhaseMenu.buildingBlocks (getPhaseMenu phase) ∧
    (Query.engine q, templates) ∈ BuildingBlock.engines block ∧
    template ∈ templates ∧
    topics ≠ [] ∧
    q = queryFor phase topics codes config (BuildingBlock.code block) (Query.engine q) template.
Proof.
  intros Hq. eapply elem_of_sublist in Hq; [|apply buildQueries_sublist].
  apply producedQueries_elem in Hq
    as (code & block & engine & templates & template & _ & Hb & <- & He & Ht & Hne & ->).
  by exists block, templates, template.
Qed.

Lemma relaxed_letter_drops_filter codes config engine c num :
  c ∈ chars codes → lookupCode (lowerChar c) = Some num →
  getActiveFilters codes config engine = getActiveFilters codes (dropFilter num config) engine.
Proof.
  intros Hc Hnum. unfold getActiveFilters. f_equal. apply exclusions_drop.
  apply relaxedCodes_elem. exists c. eauto using lookupCode_truthy.
Qed.

Lemma single_code_hygiene code num config engine :
  relaxedCodes code = {[ num ]} →
  getActiveFilters code config engine = getActiveFilters "" (dropFilter num config) engine.
Proof.
  intros Hcode. unfold getActiveFilters.
  by rewrite Hcode, relaxedCodes_empty, exclusions_singleton_drop.
Qed.

(** C4. A letter of the relax table relaxes its filter in either case: the
    filter stored under its number contributes nothing to the hygiene
    string.  So every query built for the codes A carries the hygiene
    string of the table without the AI-slop filter (number 7), and every
    query built for the codes C that of the table without the Commercial
    filter (number 5). *)
Theorem uppercase_letter_relaxes_filter :
  (∀ codes config engine c num,
      c ∈ chars codes → lookupCode (lowerChar c) = Some num →
      getActiveFilters codes config engine
      = getActiveFilters codes (dropFilter num config) engine) ∧
  (lookupCode (lowerChar "A") = Some "7" ∧ lookupCode (lowerChar "C") = Some "5") ∧
  (∀ phase topics config q,
      q ∈ buildQueries phase topics "A" config →
      ∃ block templates template,
        block ∈ PhaseMenu.buildingBlocks (getPhaseMenu phase) ∧
        (Query.engine q, templates) ∈ BuildingBlock.engines block ∧
        template ∈ templates ∧
        Query.query q
        = appendHygiene (substituteTopics template topics)
            (getActiveFilters "" (dropFilter "7" config) (Query.engine q))) ∧
  (∀ phase topics config q,
      q ∈ buildQueries phase topics "C" config →
      ∃ block templates template,
        block ∈ PhaseMenu.buildingBlocks (getPhaseMenu phase) ∧
        (Query.engine q, templates) ∈ BuildingBlock.engines block ∧
        template ∈ templates ∧
        Query.query q
        = appendHygiene (substituteTopics template topics)
            (getActiveFilters "" (dropFilter "5" config) (Query.engine q))) ∧
  (FilterConfig.name ∘ snd <$> FraviaConfig.filters (dropFilter "7" getDefaultConfig)
   = ["SOCIAL"; "FREE_HOSTING"; "SPAM_TLDS"; "STRUCTURAL_CRUFT"; "COMMERCIAL"; "LISTICLES"]) ∧
  (FilterConfig.name ∘ snd <$> FraviaConfig.filters (dropFilter "5" getDefaultConfig)
   = ["SOCIAL"; "FREE_HOSTING"; "SPAM_TLDS"; "STRUCTURAL_CRUFT"; "LISTICLES"; "AI_SLOP"]).
Proof.
  split; [exact relaxed_letter_drops_filter|].
  split; [split; reflexivity|].
  split; [|split; [|split; reflexivity]].
  - intros phase topics config q Hq.
    apply buildQueries_elem in Hq as (block & templates & template & Hb & He & Ht & _ & Hq).
    exists block, templates, template. repeat split; try done.
    rewrite Hq at 1. cbn [queryFor Query.query].
    by rewrite (single_code_hygiene "A" "7") by apply relaxedCodes_A.
  - intros phase topics config q Hq.
    apply buildQueries_elem in Hq as (block & templates & template & Hb & He & Ht & _ & Hq).
    exists block, templates, template. repeat split; try done.
    rewrite Hq at 1. cbn [queryFor Query.query].
    by rewrite (single_code_hygiene "C" "5") by apply relaxedCodes_C.
Qed.

(** * The scenario of block A and the precombination X *)

(** C1. At phase 1, topics [x] and codes A, the google query of block A
    is the template with every slot filled by x, followed by a space and
    the google clauses of six filters: the letter A of the codes, read in
    lower case, relaxes the AI-slop filter, so the query is not the one
    that carries the clauses of all seven filters. *)
Theorem scenario_phase1_codes_A :
  Query.query <$> filter (fun q => Query.engine q = "google")
                         (buildQueries 1 ["x"] "A" getDefaultConfig)
  = [ lit "`x` OR `x` OR `x`" +:+ " "
      +:+ join " " (allClauses (dropFilter "7" getDefaultConfig) "google") ] ∧
  lit "`x` OR `x` OR `x`" +:+ " " +:+ join " " (allClauses getDefaultConfig "google")
  ∉ Query.query <$> buildQueries 1 ["x"] "A" getDefaultConfig.
Proof.
  split.
  - vm_compute. reflexivity.
  - apply (bool_decide_unpack _). vm_compute. exact I.
Qed.

Lemma disjointPairs_sound l1 l2 :
  disjointPairs l1 l2 = true → Forall (fun pr => pr ∉ l2) l1.
Proof.
  unfold disjointPairs. rewrite forallb_forall, Forall_forall.
  intros Hall pr Hpr Hin. apply list_elem_of_In in Hpr. specialize (Hall pr Hpr).
  apply negb_true_iff in Hall. assert (existsb (pairEqb pr) l2 = true) as Hex; [|congruence].
  apply existsb_exists. exists pr. split; [by apply list_elem_of_In|].
  unfold pairEqb. by rewrite !String.eqb_refl.
Qed.

(** C2. At the phases 1, 4 and 7, whose precombination X expands to A and
    B, the (engine, query) pairs built for the codes X and for the codes AB
    with the default configuration have no pair in common: the letter A of
    AB relaxes the AI-slop filter, which X leaves active. *)
Theorem precombination_X_differs_from_AB :
  Forall
    (fun phase =>
       Precombination.expandsTo
         <$> find (fun p => String.eqb (Precombination.code p) "X")
                  (PhaseMenu.precombinations (getPhaseMenu phase))
       = Some ["A"; "B"] ∧
       buildQueries phase ["x"] "X" getDefaultConfig ≠ [] ∧
       Forall (fun pr => pr ∉ pairOf <$> buildQueries phase ["x"] "AB" getDefaultConfig)
              (pairOf <$> buildQueries phase ["x"] "X" getDefaultConfig))
    [1; 4; 7]%Z.
Proof.
  repeat apply Forall_cons_2; [| | |apply Forall_nil_2].
  all: split; [vm_compute; reflexivity|split; [vm_compute; discriminate|]].
  all: apply disjointPairs_sound; vm_compute; reflexivity.
Qed.

(** What the two calls differ by is the hygiene string alone. *)
Lemma precombination_X_same_hygiene phase topics config :
  phase ∈ [1; 4; 7]%Z →
  (∀ engine, getActiveFilters "X" config engine = getActiveFilters "AB" config engine) →
  buildQueries phase topics "X" config = buildQueries phase topics "AB" config.
Proof.
  intros Hphase Hhyg. unfold buildQueries, producedQueries. f_equal.
  replace (expandedCodes (getPhaseMenu phase) "X") with (expandedCodes (getPhaseMenu phase) "AB").
  - apply flat_map_ext. intros code. unfold blockQueries.
    destruct (find _ _) as [block|]; [|reflexivity].
    apply flat_map_ext. intros [engine templates]. unfold engineQueries.
    by rewrite Hhyg.
  - repeat (apply elem_of_cons in Hphase as [->|Hphase]; [reflexivity|]).
    by apply elem_of_nil in Hphase.
Qed.

(** * Topic substitution *)

Lemma getSubstitution_no_dollar replacement matched before after :
  "$"%char ∉ chars replacement →
  getSubstitution replacement matched before after = replacement.
Proof.
  induction replacement as [|c rest IH]; [done|].
  cbn [chars list_ascii_of_string]. rewrite not_elem_of_cons. intros [Hc Hrest].
  cbn [getSubstitution]. destruct (Ascii.eqb c "$") eqn:Heq.
  - apply Ascii.eqb_eq in Heq. congruence.
  - f_equal. by apply IH.
Qed.

Lemma replaceFrom_ext re f g skip before s :
  (∀ matched b a, f matched b a = g matched b a) →
  replaceFrom re f skip before s = replaceFrom re g skip before s.
Proof.
  intros Hfg. revert skip before. induction s as [|c rest IH]; intros skip before; [done|].
  cbn [replaceFrom]. destruct skip as [|k]; [|apply IH].
  destruct (re (String c rest)) as [[|len]|]; rewrite ?Hfg, IH; reflexivity.
Qed.

Lemma replace_no_dollar re text s :
  "$"%char ∉ chars text → replace re text s = replaceVerbatim re text s.
Proof.
  intros Htext. apply replaceFrom_ext. intros. by apply getSubstitution_no_dollar.
Qed.

(** Where no topic has a dollar sign, the substitution is the one the
    specification words. *)
Lemma substituteTopics_no_dollar template topics :
  Forall (fun topic => "$"%char ∉ chars topic) topics →
  substituteTopics template topics = substituteSpec template topics.
Proof.
  intros Htopics. unfold substituteTopics, substituteSpec.
  assert (∀ j query, replaceTopics j topics query = replaceTopicsSpec j topics query) as Hrt.
  { induction Htopics as [|topic rest Htopic _ IH]; intros j query; [done|].
    cbn [replaceTopics replaceTopicsSpec]. by rewrite replace_no_dollar, IH. }
  rewrite Hrt. apply replace_no_dollar.
  destruct Htopics as [|topic rest Htopic _]; [|exact Htopic].
  apply (bool_decide_unpack _). vm_compute. exact I.
Qed.

(** C7. A topic is not always put in place of its placeholder as it
    stands: the text of a topic is read as a replacement pattern.  For the
    template of the archive engine of phase 7 and the topic made of a
    dollar sign and an ampersand, the query is the placeholder itself, where
    the worded substitution gives the topic; a topic of two dollar signs is
    put in as one. *)
Theorem substitution_reads_topic_as_pattern :
  substituteTopics "<0>" ["$&"] = "<0>" ∧
  substituteSpec "<0>" ["$&"] = "$&" ∧
  substituteTopics (lit "`<0>`") ["$$"] = lit "`$`" ∧
  substituteSpec (lit "`<0>`") ["$$"] = lit "`$$`" ∧
  Query.query <$> filter (fun q => Query.engine q = "archive")
                         (buildQueries 7 ["$&"] "C" getDefaultConfig)
  = [ "<0>" +:+ " " +:+ getActiveFilters "C" getDefaultConfig "archive" ].
Proof. repeat split; vm_compute; reflexivity. Qed.

(** * One query per topic index *)

Lemma flat_map_flat_map {A B C} (f : B → list C) (g : A → list B) (l : list A) :
  flat_map f (flat_map g l) = flat_map (fun x => flat_map f (g x)) l.
Proof.
  induction l as [|x l IH]; [done|]. cbn [flat_map]. by rewrite flat_map_app, IH.
Qed.

Lemma flat_map_map {A B C} (f : B → list C) (g : A → B) (l : list A) :
  flat_map f (map g l) = flat_map (fun x => f (g x)) l.
Proof. induction l as [|x l IH]; [done|]. cbn [flat_map map]. by rewrite IH. Qed.

Lemma blockQueries_by_template menu phase topics codes config code :
  blockQueries menu phase topics codes config code
  = flat_map (fun t => repeat (queryFor phase topics codes config t.1.1 t.1.2 t.2)
                              (length topics))
             (blockTemplates menu code).
Proof.
  unfold blockQueries, blockTemplates. destruct (find _ _) as [block|]; [|done].
  rewrite flat_map_flat_map. apply flat_map_ext. intros [engine templates].
  cbn [engineQueries fst snd]. rewrite flat_map_map. apply flat_map_ext. intros template.
  apply templateQueries_repeat.
Qed.

Lemma producedQueries_by_template menu phase topics codes config :
  producedQueries menu phase topics codes config
  = flat_map (fun t => repeat (queryFor phase topics codes config t.1.1 t.1.2 t.2)
                              (length topics))
             (matchedTemplates menu codes).
Proof.
  unfold producedQueries, matchedTemplates. rewrite flat_map_flat_map.
  apply flat_map_ext. intros code. apply blockQueries_by_template.
Qed.

Lemma dedup_repeat q n : dedup (repeat q (S n)) = [q].
Proof.
  unfold dedup. cbn [repeat dedupFrom].
  rewrite bool_decide_eq_false_2 by apply not_elem_of_empty. f_equal.
  induction n as [|n IH]; [done|]. cbn [repeat dedupFrom].
  rewrite bool_decide_eq_true_2; [exact IH|]. apply elem_of_union. left.
  by apply elem_of_singleton.
Qed.

Lemma NoDup_fmap_filter_le {A B} `{EqDecision B} (f : A → B) (y : B) (l : list A) :
  NoDup (f <$> l) → length (filter (fun x => f x = y) l) ≤ 1.
Proof.
  induction l as [|x l IH]; [simpl; lia|].
  rewrite fmap_cons, NoDup_cons. intros [Hx Hl]. rewrite filter_cons.
  destruct (decide (f x = y)) as [Hy|Hy]; [|by apply IH].
  replace (filter (fun x0 => f x0 = y) l) with (@nil A); [simpl; lia|].
  symmetry. apply elem_of_nil_inv. intros z Hz. apply list_elem_of_filter in Hz as [Hz Hin].
  apply Hx. rewrite Hy, <- Hz. by apply list_elem_of_fmap_2.
Qed.

(** C8. Before deduplication the produced sequence has, for every
    matched block, engine and template, one query per topic index, all of
    them the same query, whatever placeholders the template has; two such
    queries collapse to one at the deduplication; and the result never has
    more than one entry for an (engine, query) pair.  The template of phase
    1 that uses slot 0 only, with the topics alpha and beta, gives the query
    of alpha twice. *)
Theorem one_query_per_topic_index :
  (∀ menu phase topics codes config,
      producedQueries menu phase topics codes config
      = flat_map (fun t => repeat (queryFor phase topics codes config t.1.1 t.1.2 t.2)
                                  (length topics))
                 (matchedTemplates menu codes)) ∧
  (∀ phase topics code engine hygieneString template,
      length (templateQueries phase topics code engine hygieneString template)
      = length topics) ∧
  (∀ phase a b codes config code engine template,
      dedup (templateQueries phase [a; b] code engine
                             (getActiveFilters codes config engine) template)
      = [queryFor phase [a; b] codes config code engine template]) ∧
  (∀ phase topics codes config pr,
      length (filter (fun q => pairOf q = pr) (buildQueries phase topics codes config)) ≤ 1) ∧
  substituteTopics (lit "`<0>` `overview`") ["alpha"; "beta"] = lit "`alpha` `overview`".
Proof.
  split; [exact producedQueries_by_template|].
  split; [intros; unfold templateQueries; by rewrite length_map, length_seq|].
  split; [intros; rewrite templateQueries_repeat; apply dedup_repeat|].
  split; [|vm_compute; reflexivity].
  intros. apply NoDup_fmap_filter_le, dedup_NoDup_pairs.
Qed.

(** * Further properties of [buildQueries] *)





Lemma blockCodes_no_upper codes :
  Forall (fun c => isUpper c = false) (chars codes) → blockCodes codes = [].
Proof.
  unfold blockCodes. induction 1 as [|c l Hc _ IH]; [done|].
  rewrite filter_cons, decide_False by congruence. exact IH.
Qed.

(** X1. A code string without an uppercase letter selects nothing: the
    result is empty for every phase, topic list and configuration. *)
Theorem buildQueries_no_block_letter phase topics codes config :
  Forall (fun c => isUpper c = false) (chars codes) →
  buildQueries phase topics codes config = [].
Proof.
  intros Hcodes. unfold buildQueries, producedQueries, expandedCodes.
  by rewrite blockCodes_no_upper.
Qed.

Lemma buildQueries_no_block_letter_witness :
  buildQueries 1 ["x"] "s a1" getDefaultConfig = [].
Proof.
  apply (buildQueries_no_block_letter 1 ["x"] "s a1" getDefaultConfig).
  apply (bool_decide_unpack _). vm_compute. exact I.
Defined.



(** X3. Every returned query carries the phase of the call, the code of a
    building block of the menu that is among the expanded codes, and an
    engine for which that block has the template the query was built
    from. *)
Theorem buildQueries_provenance phase topics codes config :
  Forall
    (fun q =>
       Query.phase q = phase ∧
       Query.blockCode q ∈ expandedCodes (getPhaseMenu phase) codes ∧
       ∃ block templates template,
         block ∈ PhaseMenu.buildingBlocks (getPhaseMenu phase) ∧
         BuildingBlock.code block = Query.blockCode q ∧
         (Query.engine q, templates) ∈ BuildingBlock.engines block ∧
         template ∈ templates ∧
         Query.query q
         = appendHygiene (substituteTopics template topics)
                         (getActiveFilters codes config (Query.engine q)))
    (buildQueries phase topics codes config).
Proof.
  apply Forall_forall. intros q Hq.
  eapply elem_of_sublist in Hq; [|apply buildQueries_sublist].
  apply producedQueries_elem in Hq
    as (code & block & engine & templates & template & Hc & Hb & Hcode & He & Ht & _ & ->).
  cbn [queryFor Query.phase Query.blockCode Query.engine Query.query].
  split; [done|]. split; [done|]. by exists block, templates, template.
Qed.

(** * Further properties of [getActiveFilters] *)

Lemma lowerChar_idem c : lowerChar (lowerChar c) = lowerChar c.
Proof. destruct c as [[] [] [] [] [] [] [] []]; reflexivity. Qed.

Lemma toLowerCase_idem s : toLowerCase (toLowerCase s) = toLowerCase s.
Proof. induction s as [|c s IH]; [done|]. cbn [toLowerCase]. by rewrite lowerChar_idem, IH. Qed.



Lemma relaxedCodes_ext codes1 codes2 :
  (∀ c, c ∈ chars (toLowerCase codes1) ↔ c ∈ chars (toLowerCase codes2)) →
  relaxedCodes codes1 = relaxedCodes codes2.
Proof.
  intros Hsame. apply set_eq. intros num. unfold relaxedCodes.
  rewrite !foldl_relaxStep_elem. by setoid_rewrite Hsame.
Qed.

(** X5. The hygiene string depends on the codes only through the set of
    their letters read in lower case: order, repetition and case of the
    letters do not matter. *)
Theorem getActiveFilters_codes_as_set config engine :
  (∀ codes1 codes2,
      getActiveFilters (codes1 +:+ codes2) config engine
      = getActiveFilters (codes2 +:+ codes1) config engine) ∧
  (∀ codes,
      getActiveFilters (codes +:+ codes) config engine
      = getActiveFilters codes config engine) ∧
  (∀ codes,
      getActiveFilters (toLowerCase codes) config engine
      = getActiveFilters codes config engine).
Proof.
  unfold getActiveFilters. repeat split; intros; f_equal; f_equal; apply relaxedCodes_ext;
    intros c; rewrite ?toLowerCase_idem, ?toLowerCase_app, ?chars_app, ?elem_of_app; tauto.
Qed.

Lemma exclusions_all_relaxed (relaxed : gset string) config target :
  Forall (fun entry => entry.1 ∈ relaxed) (FraviaConfig.filters config) →
  exclusions relaxed config target = [].
Proof.
  unfold exclusions. induction 1 as [|[num filter] l Hnum _ IH]; [done|].
  cbn [flat_map]. simpl in Hnum. by rewrite bool_decide_eq_true_2.
Qed.

(** X6. When the codes relax every filter of the configuration, the
    hygiene string is empty for every engine and each returned query is
    the substituted template alone, with nothing appended. *)
Theorem all_filters_relaxed phase topics codes config :
  Forall (fun entry => entry.1 ∈ relaxedCodes codes) (FraviaConfig.filters config) →
  (∀ engine, getActiveFilters codes config engine = "") ∧
  Forall
    (fun q =>
       ∃ block templates template,
         block ∈ PhaseMenu.buildingBlocks (getPhaseMenu phase) ∧
         (Query.engine q, templates) ∈ BuildingBlock.engines block ∧
         template ∈ templates ∧
         Query.query q = substituteTopics template topics)
    (buildQueries phase topics codes config).
Proof.
  intros Hall.
  assert (∀ engine, getActiveFilters codes config engine = "") as Hempty.
  { intros engine. unfold getActiveFilters. by rewrite exclusions_all_relaxed. }
  split; [exact Hempty|].
  apply Forall_forall. intros q Hq.
  apply buildQueries_elem in Hq as (block & templates & template & Hb & He & Ht & _ & Hq).
  exists block, templates, template. repeat split; try done.
  rewrite Hq at 1. cbn [queryFor Query.query]. by rewrite Hempty.
Qed.

Lemma all_filters_relaxed_witness :
  (∀ engine, getActiveFilters "sXftucla" getDefaultConfig engine = "") ∧
  Forall
    (fun q =>
       ∃ block templates template,
         block ∈ PhaseMenu.buildingBlocks (getPhaseMenu 1) ∧
         (Query.engine q, templates) ∈ BuildingBlock.engines block ∧
         template ∈ templates ∧
         Query.query q = substituteTopics template ["x"])
    (buildQueries 1 ["x"] "sXftucla" getDefaultConfig).
Proof.
  apply (all_filters_relaxed 1 ["x"] "sXftucla" getDefaultConfig).
  apply (bool_decide_unpack _). vm_compute. exact I.
Defined.

(** * Further properties of the phase catalog *)



(** * The tables of the menus *)

Lemma PHASE_MENUS_well_formed :
  Forall (fun entry => menuWellFormed (PhaseData.buildingBlocks entry.2)
                                      (PhaseData.precombinations entry.2))
         PHASE_MENUS.
Proof. unfold menuWellFormed. apply (bool_decide_unpack _). vm_compute. exact I. Qed.

Lemma getPhaseMenu_tables (phase : Z) :
  menuWellFormed (PhaseMenu.buildingBlocks (getPhaseMenu phase))
                 (PhaseMenu.precombinations (getPhaseMenu phase)).
Proof.
  unfold getPhaseMenu, lookupPhaseData.
  destruct (find _ PHASE_MENUS) as [[k data]|] eqn:Hfind; simpl.
  - apply find_some in Hfind as [Hin _]. apply list_elem_of_In in Hin.
    pose proof PHASE_MENUS_well_formed as Hall. rewrite Forall_forall in Hall.
    exact (Hall _ Hin).
  - repeat split; constructor.
Qed.

(** X8. In the menu of every phase the block codes are distinct, the
    precombination codes are distinct and differ from the block codes, and
    every precombination expands to codes of building blocks of the same
    menu: one level of expansion always ends in blocks. *)
Theorem getPhaseMenu_well_formed_tables (phase : Z) :
  menuWellFormed (PhaseMenu.buildingBlocks (getPhaseMenu phase))
                 (PhaseMenu.precombinations (getPhaseMenu phase)).
Proof. apply getPhaseMenu_tables. Qed.

(** * Repeated selection letters *)

Lemma expandStep_expansion menu acc code :
  expandStep menu acc code = foldl setAdd acc (expansion menu code).
Proof. unfold expandStep, expansion. by destruct (find _ _). Qed.

Lemma setAdd_elem s x y : y ∈ setAdd s x ↔ y ∈ s ∨ y = x.
Proof.
  unfold setAdd. case_bool_decide as Hx.
  - split; [by left|]. by intros [?| ->].
  - rewrite elem_of_app, list_elem_of_singleton. tauto.
Qed.

Lemma foldl_setAdd_elem l s y : y ∈ foldl setAdd s l ↔ y ∈ s ∨ y ∈ l.
Proof.
  revert s. induction l as [|x l IH]; intros s; cbn [foldl].
  - rewrite elem_of_nil. tauto.
  - rewrite IH, setAdd_elem, elem_of_cons. tauto.
Qed.

Lemma foldl_setAdd_absorb l s : (∀ y, y ∈ l → y ∈ s) → foldl setAdd s l = s.
Proof.
  induction l as [|x l IH]; intros Hl; [done|]. cbn [foldl].
  unfold setAdd at 2. rewrite bool_decide_eq_true_2.
  - apply IH. intros y Hy. apply Hl, elem_of_cons. by right.
  - apply Hl, elem_of_cons. by left.
Qed.

Lemma foldl_expandStep_elem menu l s y :
  y ∈ foldl (expandStep menu) s l ↔ y ∈ s ∨ ∃ c, c ∈ l ∧ y ∈ expansion menu c.
Proof.
  revert s. induction l as [|x l IH]; intros s; cbn [foldl].
  - split; [by left|]. intros [?|(c & Hc & _)]; [done|]. by apply elem_of_nil in Hc.
  - rewrite IH, expandStep_expansion, foldl_setAdd_elem. split.
    + intros [[?|?]|(c & Hc & Hy)]; [by left| |].
      * right. exists x. split; [apply elem_of_cons; by left|done].
      * right. exists c. split; [apply elem_of_cons; by right|done].
    + intros [?|(c & Hc & Hy)]; [left; by left|].
      apply elem_of_cons in Hc as [->|Hc]; [left; by right|right; by exists c].
Qed.

Lemma foldl_expandStep_absorb menu l s :
  (∀ c y, c ∈ l → y ∈ expansion menu c → y ∈ s) → foldl (expandStep menu) s l = s.
Proof.
  induction l as [|x l IH]; intros Hl; [done|]. cbn [foldl].
  rewrite expandStep_expansion, foldl_setAdd_absorb.
  - apply IH. intros c y Hc. apply Hl, elem_of_cons. by right.
  - intros y. apply Hl, elem_of_cons. by left.
Qed.

Lemma blockCodes_app a b : blockCodes (a +:+ b) = blockCodes a ++ blockCodes b.
Proof. unfold blockCodes. by rewrite chars_app, filter_app, map_app. Qed.

Lemma expandedCodes_repeated menu codes1 codes2 :
  expandedCodes menu (codes1 +:+ codes2 +:+ codes1) = expandedCodes menu (codes1 +:+ codes2).
Proof.
  unfold expandedCodes. rewrite !blockCodes_app, !foldl_app.
  apply foldl_expandStep_absorb. intros c y Hc Hy.
  rewrite foldl_expandStep_elem. left. rewrite foldl_expandStep_elem. right. by exists c.
Qed.

Lemma producedQueries_ext menu phase topics codes codes' config :
  expandedCodes menu codes = expandedCodes menu codes' →
  (∀ engine, getActiveFilters codes config engine = getActiveFilters codes' config engine) →
  producedQueries menu phase topics codes config
  = producedQueries menu phase topics codes' config.
Proof.
  intros Hexp Hhyg. unfold producedQueries. rewrite Hexp.
  apply flat_map_ext. intros code. unfold blockQueries.
  destruct (find _ _) as [block|]; [|reflexivity].
  apply flat_map_ext. intros [engine templates]. unfold engineQueries. by rewrite Hhyg.
Qed.

(** X9. Letters typed again change nothing: the codes followed by a copy
    of their beginning give the same result as the codes alone, in the
    same order. *)
Theorem buildQueries_repeated_codes phase topics codes1 codes2 config :
  buildQueries phase topics (codes1 +:+ codes2 +:+ codes1) config
  = buildQueries phase topics (codes1 +:+ codes2) config.
Proof.
  unfold buildQueries. f_equal. apply producedQueries_ext.
  - apply expandedCodes_repeated.
  - intros engine. unfold getActiveFilters. f_equal. f_equal. apply relaxedCodes_ext.
    intros c. rewrite !toLowerCase_app, !chars_app, !elem_of_app. tauto.
Qed.

(** X10. When no topic has a dollar sign, every placeholder of a topic index
    is replaced by exactly the text of that topic, index after index, and
    every placeholder left by exactly the text of the first topic. *)
Theorem substituteTopics_verbatim template topics :
  Forall (fun topic => "$"%char ∉ chars topic) topics →
  substituteTopics template topics = substituteSpec template topics.
Proof. apply substituteTopics_no_dollar. Qed.

Lemma substituteTopics_verbatim_witness :
  substituteTopics (lit "`<0>` OR `<1>` OR `<2>`") ["neural networks"; "deep learning"]
  = substituteSpec (lit "`<0>` OR `<1>` OR `<2>`") ["neural networks"; "deep learning"].
Proof.
  apply (substituteTopics_verbatim _ ["neural networks"; "deep learning"]).
  apply (bool_decide_unpack _). vm_compute. exact I.
Defined.

(** * Templates without placeholders, and selected blocks *)

Lemma replaceFrom_no_match re subst before s :
  (∀ c rest, c ≠ "<"%char → re (String c rest) = None) →
  "<"%char ∉ chars s →
  replaceFrom re subst 0 before s = s.
Proof.
  intros Hre. revert before. induction s as [|c rest IH]; intros before; [done|].
  cbn [chars list_ascii_of_string]. rewrite not_elem_of_cons. intros [Hc Hrest].
  cbn [replaceFrom]. rewrite Hre by congruence. f_equal. by apply IH.
Qed.

Lemma topicPlaceholder_head j c rest : c ≠ "<"%char → topicPlaceholder j (String c rest) = None.
Proof.
  intros Hc. unfold topicPlaceholder.
  change ("<" +:+ indexToString j +:+ ">") with (String "<" (indexToString j +:+ ">")).
  cbn [String.prefix]. destruct (ascii_dec "<" c) as [<-|]; done.
Qed.

Lemma anyPlaceholder_head c rest : c ≠ "<"%char → anyPlaceholder (String c rest) = None.
Proof.
  intros Hc. unfold anyPlaceholder. destruct (Ascii.eqb_spec c "<"); done.
Qed.

(** X11. A template without an opening angle bracket has no placeholder: the
    query is the template itself, whatever the topics are. *)
Theorem substituteTopics_no_placeholder template topics :
  "<"%char ∉ chars template → substituteTopics template topics = template.
Proof.
  intros Htemplate. unfold substituteTopics.
  assert (∀ j, replaceTopics j topics template = template) as ->.
  { induction topics as [|topic rest IH]; intros j; [done|].
    cbn [replaceTopics]. unfold replace.
    rewrite replaceFrom_no_match; auto using topicPlaceholder_head. }
  unfold replace. apply replaceFrom_no_match; auto using anyPlaceholder_head.
Qed.

Lemma substituteTopics_no_placeholder_witness :
  substituteTopics "site:example.org $& review" ["a"; "$&"] = "site:example.org $& review".
Proof.
  apply (substituteTopics_no_placeholder "site:example.org $& review" ["a"; "$&"]).
  apply (bool_decide_unpack _). vm_compute. exact I.
Defined.

Lemma allBlocks_hasTemplate : forallb hasTemplate allBlocks = true.
Proof. vm_compute. reflexivity. Qed.

Lemma dedup_nil_inv l : dedup l = [] → l = [].
Proof.
  unfold dedup. destruct l as [|q l]; [done|]. cbn [dedupFrom].
  by rewrite bool_decide_eq_false_2 by apply not_elem_of_empty.
Qed.

(** X12. A letter of the codes that is the code of a building block of the
    phase gives at least one query, as soon as there is a topic. *)
Theorem buildQueries_selected_block phase topics codes config block :
  block ∈ PhaseMenu.buildingBlocks (getPhaseMenu phase) →
  BuildingBlock.code block ∈ blockCodes codes →
  topics ≠ [] →
  buildQueries phase topics codes config ≠ [].
Proof.
  intros Hblock Hcode Htopics Hnil. apply dedup_nil_inv in Hnil.
  set (menu := getPhaseMenu phase) in *.
  destruct (getPhaseMenu_tables phase) as (_ & _ & Hprecombos & _).
  fold menu in Hprecombos.
  assert (BuildingBlock.code block ∈ expandedCodes menu codes) as Hexp.
  { unfold expandedCodes. apply foldl_expandStep_elem. right.
    exists (BuildingBlock.code block). split; [done|]. unfold expansion.
    destruct (find _ _) as [p|] eqn:Hfind; [|apply elem_of_cons; by left].
    apply find_some in Hfind as [Hp Hpcode]. apply String.eqb_eq in Hpcode.
    rewrite Forall_forall in Hprecombos. apply list_elem_of_In in Hp.
    destruct (Hprecombos p Hp). rewrite Hpcode. by apply list_elem_of_fmap_2. }
  assert (blockQueries menu phase topics codes config (BuildingBlock.code block) = []) as Hbq.
  { apply elem_of_nil_inv. intros q Hq.
    assert (q ∈ producedQueries menu phase topics codes config) as Hin;
      [|rewrite Hnil in Hin; by apply elem_of_nil in Hin].
    unfold producedQueries. apply list_elem_of_In, in_flat_map.
    exists (BuildingBlock.code block). by rewrite <- !list_elem_of_In. }
  unfold blockQueries in Hbq.
  destruct (find _ _) as [block'|] eqn:Hfind.
  - apply find_some in Hfind as [Hin' _]. apply list_elem_of_In, getPhaseMenu_blocks in Hin'.
    pose proof allBlocks_hasTemplate as Hall. rewrite forallb_forall in Hall.
    apply list_elem_of_In in Hin'. specialize (Hall _ Hin'). unfold hasTemplate in Hall.
    apply existsb_exists in Hall as ([engine templates] & Hentry & Htemplates).
    cbn [snd] in Htemplates.
    destruct templates as [|template templates]; [done|].
    destruct topics as [|topic topics]; [done|].
    assert (queryFor phase (topic :: topics) codes config (BuildingBlock.code block) engine template
            ∈ (@nil Query.t)) as Hq; [|by apply elem_of_nil in Hq].
    rewrite <- Hbq. apply list_elem_of_In, in_flat_map. exists (engine, template :: templates).
    split; [done|]. cbn [engineQueries flat_map]. apply in_or_app. left.
    rewrite templateQueries_repeat. by left.
  - apply list_elem_of_In in Hblock. pose proof (find_none _ _ Hfind block Hblock) as Hne.
    simpl in Hne. by rewrite String.eqb_refl in Hne.
Qed.

Lemma buildQueries_selected_block_witness :
  buildQueries 7 ["x"] "s C" getDefaultConfig ≠ [].
Proof.
  apply (buildQueries_selected_block 7 ["x"] "s C" getDefaultConfig
           (BuildingBlock.mk "C" "Wayback Machine"
              "Search Internet Archive for historical snapshots."
              [("archive", ["<0>"]); ("google", [lit "site:web.archive.org `<0>`"])])).
  - apply list_elem_of_In. vm_compute. right. right. left. reflexivity.
  - apply list_elem_of_In. vm_compute. left. reflexivity.
  - discriminate.
Defined.

(** * URL encoding and the search URLs *)

Lemma decodeHead_encodeChar c rest : decodeHead (encodeChar c +:+ rest) = Some (c, rest).
Proof. destruct c as [[] [] [] [] [] [] [] []]; reflexivity. Qed.

Lemma encodeChar_safe c :
  forallb (fun d => isUnreserved d || Ascii.eqb d "%") (chars (encodeChar c)) = true.
Proof. destruct c as [[] [] [] [] [] [] [] []]; reflexivity. Qed.

Lemma chars_inj s1 s2 : chars s1 = chars s2 → s1 = s2.
Proof.
  intros H. rewrite <- (string_of_list_ascii_of_string s1), <- (string_of_list_ascii_of_string s2).
  unfold chars in H. by rewrite H.
Qed.

Lemma append_inj_l prefix a b : prefix +:+ a = prefix +:+ b → a = b.
Proof. induction prefix as [|c prefix IH]; simpl; [done|]. intros [= H]. by apply IH. Qed.

Lemma append_inj_r suffix a b : a +:+ suffix = b +:+ suffix → a = b.
Proof.
  intros H. apply chars_inj. apply (f_equal chars) in H. rewrite !chars_app in H.
  by apply (inj (fun l => l ++ chars suffix)) in H.
Qed.

Lemma append_assoc (a b c : string) : (a +:+ b) +:+ c = a +:+ (b +:+ c).
Proof.
  induction a as [|x a IH]; [done|].
  change (String x ((a +:+ b) +:+ c) = String x (a +:+ (b +:+ c))). by rewrite IH.
Qed.

Lemma safe_char_not_special d :
  isUnreserved d || Ascii.eqb d "%" = true →
  d ∉ chars (lit " `#$&+,/:;<=>?@[\]^{|}").
Proof.
  intros H. apply (bool_decide_unpack _). revert H.
  destruct d as [[] [] [] [] [] [] [] []]; vm_compute; intros H; (exact I || discriminate H).
Qed.

(** X13. Whatever the text, its encoding is made of unreserved characters
    and percent signs only: no space, quote, ampersand, equals sign,
    question mark, hash, slash or other delimiter of a URL occurs in
    it. *)
Theorem encodeURIComponent_safe (s : string) :
  Forall (fun d => isUnreserved d = true ∨ d = "%"%char) (chars (encodeURIComponent s)) ∧
  Forall (fun d => d ∉ chars (lit " `#$&+,/:;<=>?@[\]^{|}")) (chars (encodeURIComponent s)).
Proof.
  assert (Forall (fun d => isUnreserved d || Ascii.eqb d "%" = true)
                 (chars (encodeURIComponent s))) as Hsafe.
  { induction s as [|c s IH]; [constructor|].
    cbn [encodeURIComponent]. rewrite chars_app. apply Forall_app. split; [|exact IH].
    apply Forall_forall. intros d Hd. apply list_elem_of_In in Hd.
    pose proof (encodeChar_safe c) as Hc. rewrite forallb_forall in Hc. by apply Hc. }
  split; eapply Forall_impl; try exact Hsafe; simpl; intros d Hd.
  - apply orb_true_iff in Hd as [Hd|Hd]; [by left|right]. by apply Ascii.eqb_eq.
  - by apply safe_char_not_special.
Qed.

Lemma encodeURIComponent_inj s1 s2 :
  encodeURIComponent s1 = encodeURIComponent s2 → s1 = s2.
Proof.
  revert s2. induction s1 as [|c1 s1 IH]; intros [|c2 s2]; cbn [encodeURIComponent]; intros H.
  - done.
  - apply (f_equal decodeHead) in H. by rewrite decodeHead_encodeChar in H.
  - apply (f_equal decodeHead) in H. by rewrite decodeHead_encodeChar in H.
  - apply (f_equal decodeHead) in H. rewrite !decodeHead_encodeChar in H.
    injection H as -> H. f_equal. by apply IH.
Qed.

(** X14. The encoding loses nothing: different texts have different
    encodings. *)
Theorem encodeURIComponent_injective s1 s2 :
  s1 ≠ s2 → encodeURIComponent s1 ≠ encodeURIComponent s2.
Proof. intros Hne Heq. by apply Hne, encodeURIComponent_inj. Qed.

Lemma encodeURIComponent_injective_witness :
  encodeURIComponent "a b" ≠ encodeURIComponent "a%20b".
Proof. apply (encodeURIComponent_injective "a b" "a%20b"). discriminate. Defined.

Lemma getSearchUrl_inj engine q1 q2 :
  getSearchUrl engine q1 = getSearchUrl engine q2 → q1 = q2.
Proof.
  unfold getSearchUrl. intros H. apply encodeURIComponent_inj.
  repeat match type of H with
         | context [if ?b then _ else _] => destruct b
         end; by apply append_inj_l in H.
Qed.

(** X15. For every engine name, known or not, the manual search URLs of
    two different queries are different. *)
Theorem getSearchUrl_injective engine q1 q2 :
  q1 ≠ q2 → getSearchUrl engine q1 ≠ getSearchUrl engine q2.
Proof. intros Hne Heq. by apply Hne, (getSearchUrl_inj engine). Qed.

Lemma getSearchUrl_injective_witness :
  getSearchUrl "Yandex" "a&b" ≠ getSearchUrl "Yandex" "a".
Proof. apply (getSearchUrl_injective "Yandex" "a&b" "a"). discriminate. Defined.

Lemma buildSearchUrl_inj engine q1 q2 :
  buildSearchUrl engine q1 = buildSearchUrl engine q2 → q1 = q2.
Proof.
  unfold buildSearchUrl. intros H. apply encodeURIComponent_inj.
  repeat match type of H with
         | context [if ?b then _ else _] => destruct b
         end;
    repeat apply append_inj_l in H; try apply append_inj_r in H; done.
Qed.

(** X16. For every engine configuration, of either type and with any
    identifier and base URL, the search URLs built for two different
    queries are different. *)
Theorem buildSearchUrl_injective engine q1 q2 :
  q1 ≠ q2 → buildSearchUrl engine q1 ≠ buildSearchUrl engine q2.
Proof. intros Hne Heq. by apply Hne, (buildSearchUrl_inj engine). Qed.

Lemma buildSearchUrl_injective_witness :
  buildSearchUrl (EngineConfig.mk "archive" "api" "Wayback" "https://web.archive.org"
                    (Selectors.mk "" "" "" ""))
                 "example.org"
  ≠ buildSearchUrl (EngineConfig.mk "archive" "api" "Wayback" "https://web.archive.org"
                      (Selectors.mk "" "" "" ""))
                   "example.org*".
Proof.
  apply (buildSearchUrl_injective
           (EngineConfig.mk "archive" "api" "Wayback" "https://web.archive.org"
              (Selectors.mk "" "" "" ""))
           "example.org" "example.org*").
  discriminate.
Defined.

(** * The execution plan *)

Lemma fallbackStep_grows now results q :
  ∃ more, fallbackStep now results q = results ++ more.
Proof.
  unfold fallbackStep, pushResult. destruct (existsb _ _); [exists []|eexists]; [|done].
  by rewrite app_nil_r.
Qed.

Lemma foldl_fallbackStep_grows now l results :
  ∃ more, foldl (fallbackStep now) results l = results ++ more.
Proof.
  revert results. induction l as [|q l IH]; intros results; cbn [foldl].
  - exists []. by rewrite app_nil_r.
  - destruct (fallbackStep_grows now results q) as [m1 ->].
    destruct (IH (results ++ m1)) as [m2 ->]. exists (m1 ++ m2). by rewrite app_assoc.
Qed.

Lemma fallbackStep_covers now results q :
  existsb (hasEngine (Query.engine q)) (fallbackStep now results q) = true.
Proof.
  unfold fallbackStep. destruct (existsb _ results) eqn:Hex; [exact Hex|].
  unfold pushResult. rewrite existsb_app. apply orb_true_iff. right.
  cbn. unfold hasEngine. cbn. by rewrite String.eqb_refl.
Qed.

Lemma foldl_fallbackStep_covers now l results :
  Forall (fun q => existsb (hasEngine (Query.engine q)) (foldl (fallbackStep now) results l) = true)
         l.
Proof.
  revert results. induction l as [|q l IH]; intros results; [constructor|].
  cbn [foldl]. constructor; [|apply IH].
  destruct (foldl_fallbackStep_grows now l (fallbackStep now results q)) as [more ->].
  rewrite existsb_app, fallbackStep_covers. done.
Qed.

(** X17. The engine of every query has a result: where neither the browser
    plan nor the API plan has one, the last loop adds the manual one. *)
Theorem executeQueries_covers_every_engine engines now queries :
  Forall (fun q => ∃ r, r ∈ executeQueries engines now queries ∧
                        QueryResult.engine r = Query.engine q)
         queries.
Proof.
  unfold executeQueries. eapply Forall_impl; [apply foldl_fallbackStep_covers|].
  simpl. intros q Hq. apply existsb_exists in Hq as (r & Hr & Heng).
  exists r. split; [by apply list_elem_of_In|]. by apply String.eqb_eq.
Qed.

Lemma foldl_pushResult_app {A} now (make : A → string → QueryResult.t) l results :
  ∃ more,
    foldl (fun results x => pushResult now results (make x)) results l = results ++ more ∧
    Forall2 (fun x r => ∃ timestamp, r = make x timestamp) l more.
Proof.
  revert results. induction l as [|x l IH]; intros results; cbn [foldl].
  - exists []. split; [by rewrite app_nil_r|constructor].
  - destruct (IH (pushResult now results (make x))) as (more & -> & Hmore).
    unfold pushResult. rewrite <- app_assoc. eexists. split; [reflexivity|].
    constructor; [by eexists|exact Hmore].
Qed.

Lemma plannedResults_shape engines now queries :
  ∃ browser api,
    plannedResults engines now queries = browser ++ api ∧
    Forall2 (fun inst r => ∃ timestamp, r = browserResult inst timestamp)
            (generateBrowserInstructions engines
               (toRequest <$> filter (fun q => isBrowserQuery engines q = true) queries))
            browser ∧
    Forall2 (fun inst r => ∃ timestamp, r = apiResult inst timestamp)
            (generateApiInstructions engines
               (toRequest <$> filter (fun q => isBrowserQuery engines q = false) queries))
            api.
Proof.
  unfold plannedResults.
  set (bq := filter (fun q => isBrowserQuery engines q = true) queries).
  set (aq := filter (fun q => isBrowserQuery engines q = false) queries).
  destruct (foldl_pushResult_app now browserResult
              (generateBrowserInstructions engines (toRequest <$> bq)) [])
    as (browser & Hb & Hbrowser).
  assert ((if (0 <? length bq)%nat
           then foldl (fun results inst => pushResult now results (browserResult inst)) []
                      (generateBrowserInstructions engines (toRequest <$> bq))
           else []) = browser) as ->.
  { destruct bq; [|exact Hb]. simpl in *. by inversion Hbrowser. }
  destruct (foldl_pushResult_app now apiResult
              (generateApiInstructions engines (toRequest <$> aq)) browser)
    as (api & Ha & Hapi).
  exists browser, api. split; [|done].
  destruct aq; [|exact Ha]. simpl in *. inversion Hapi. by rewrite app_nil_r.
Qed.

Lemma browserInstruction_elem engines req inst :
  In inst (browserInstruction engines req) →
  ∃ engine,
    enginesGet engines (SearchRequest.engine req) = Some engine ∧
    EngineConfig.type engine = "browser" ∧ browserInstruction engines req = [inst].
Proof.
  unfold browserInstruction. destruct (enginesGet _ _) as [engine|]; [|intros []].
  destruct (String.eqb_spec (EngineConfig.type engine) "browser") as [Htype|];
    cbn [negb]; [|intros []].
  intros [<-|[]]. by exists engine.
Qed.

Lemma apiInstruction_elem engines req inst :
  In inst (apiInstruction engines req) →
  ∃ engine,
    enginesGet engines (SearchRequest.engine req) = Some engine ∧
    EngineConfig.type engine = "api" ∧ apiInstruction engines req = [inst].
Proof.
  unfold apiInstruction. destruct (enginesGet _ _) as [engine|]; [|intros []].
  destruct (String.eqb_spec (EngineConfig.type engine) "api") as [Htype|];
    cbn [negb]; [|intros []].
  intros [<-|[]]. by exists engine.
Qed.

Lemma generateBrowserInstructions_elem engines requests inst :
  inst ∈ generateBrowserInstructions engines requests ↔
  ∃ req engine,
    req ∈ requests ∧ enginesGet engines (SearchRequest.engine req) = Some engine ∧
    EngineConfig.type engine = "browser" ∧ browserInstruction engines req = [inst].
Proof.
  unfold generateBrowserInstructions. rewrite list_elem_of_In, in_flat_map. split.
  - intros (req & Hreq & Hinst). apply browserInstruction_elem in Hinst as (engine & H).
    exists req, engine. by rewrite list_elem_of_In.
  - intros (req & engine & Hreq & _ & _ & Hinst). exists req.
    rewrite <- list_elem_of_In, Hinst. split; [done|by left].
Qed.

Lemma generateApiInstructions_elem engines requests inst :
  inst ∈ generateApiInstructions engines requests ↔
  ∃ req engine,
    req ∈ requests ∧ enginesGet engines (SearchRequest.engine req) = Some engine ∧
    EngineConfig.type engine = "api" ∧ apiInstruction engines req = [inst].
Proof.
  unfold generateApiInstructions. rewrite list_elem_of_In, in_flat_map. split.
  - intros (req & Hreq & Hinst). apply apiInstruction_elem in Hinst as (engine & H).
    exists req, engine. by rewrite list_elem_of_In.
  - intros (req & engine & Hreq & _ & _ & Hinst). exists req.
    rewrite <- list_elem_of_In, Hinst. split; [done|by left].
Qed.

Lemma enginesGet_Some engines key engine :
  enginesGet engines key = Some engine → (key, engine) ∈ engines.
Proof.
  unfold enginesGet. destruct (find _ _) as [[k e]|] eqn:Hfind; [|done].
  apply find_some in Hfind as [Hin Hk]. simpl in Hk. apply String.eqb_eq in Hk as ->.
  intros [= <-]. by apply list_elem_of_In.
Qed.


Lemma Forall2_elem_l {A B} (R : A → B → Prop) l k x :
  Forall2 R l k → x ∈ l → ∃ y, y ∈ k ∧ R x y.
Proof.
  induction 1 as [|x' y' l k HR _ IH]; intros Hx; [by apply elem_of_nil in Hx|].
  apply elem_of_cons in Hx as [->|Hx].
  - exists y'. split; [apply elem_of_cons; by left|done].
  - destruct (IH Hx) as (y & Hy & Hxy). exists y. split; [apply elem_of_cons; by right|done].
Qed.


Lemma plannedResults_configured engines now queries q engine :
  q ∈ queries →
  enginesGet engines (Query.engine q) = Some engine →
  EngineConfig.type engine = "browser" ∨ EngineConfig.type engine = "api" →
  ∃ r, r ∈ plannedResults engines now queries ∧
       QueryResult.engine r = EngineConfig.id engine ∧
       QueryResult.url r = buildSearchUrl engine (Query.query q) ∧
       QueryResult.query r = buildSearchUrl engine (Query.query q).
Proof.
  intros Hq Hget Htype.
  destruct (plannedResults_shape engines now queries) as (browser & api & -> & Hb & Ha).
  destruct Htype as [Htype|Htype].
  - assert (browserInstruction engines (toRequest q) ≠ []) as Hinst.
    { unfold browserInstruction. cbn [toRequest SearchRequest.engine]. by rewrite Hget, Htype. }
    destruct (browserInstruction engines (toRequest q)) as [|inst rest] eqn:Heq; [done|].
    assert (In inst (browserInstruction engines (toRequest q))) as Hin by (rewrite Heq; by left).
    apply browserInstruction_elem in Hin as (engine' & Hget' & _ & Hone).
    cbn [toRequest SearchRequest.engine] in Hget'. rewrite Hget in Hget'. injection Hget' as <-.
    assert (inst ∈ generateBrowserInstructions engines
              (toRequest <$> filter (fun q => isBrowserQuery engines q = true) queries)) as Hgen.
    { apply generateBrowserInstructions_elem. exists (toRequest q), engine.
      repeat split; try done. apply list_elem_of_fmap_2, list_elem_of_filter. split; [|done].
      unfold isBrowserQuery. rewrite Hget, Htype. done. }
    destruct (Forall2_elem_l _ _ _ _ Hb Hgen) as (r & Hr & ts & ->).
    exists (browserResult inst ts). split; [rewrite elem_of_app; by left|].
    unfold browserInstruction in Hone. cbn [toRequest SearchRequest.engine] in Hone.
    rewrite Hget, Htype in Hone. cbn in Hone. injection Hone as <-. done.
  - assert (browserInstruction engines (toRequest q) = []) as _ by
        (unfold browserInstruction; cbn [toRequest SearchRequest.engine];
         by rewrite Hget, Htype).
    destruct (apiInstruction engines (toRequest q)) as [|inst rest] eqn:Heq.
    { unfold apiInstruction in Heq. cbn [toRequest SearchRequest.engine] in Heq.
      by rewrite Hget, Htype in Heq. }
    assert (In inst (apiInstruction engines (toRequest q))) as Hin by (rewrite Heq; by left).
    apply apiInstruction_elem in Hin as (engine' & Hget' & _ & Hone).
    cbn [toRequest SearchRequest.engine] in Hget'. rewrite Hget in Hget'. injection Hget' as <-.
    assert (inst ∈ generateApiInstructions engines
              (toRequest <$> filter (fun q => isBrowserQuery engines q = false) queries)) as Hgen.
    { apply generateApiInstructions_elem. exists (toRequest q), engine.
      repeat split; try done. apply list_elem_of_fmap_2, list_elem_of_filter. split; [|done].
      unfold isBrowserQuery. rewrite Hget, Htype. done. }
    destruct (Forall2_elem_l _ _ _ _ Ha Hgen) as (r & Hr & ts & ->).
    exists (apiResult inst ts). split; [rewrite elem_of_app; by right|].
    unfold apiInstruction in Hone. cbn [toRequest SearchRequest.engine] in Hone.
    rewrite Hget, Htype in Hone. cbn in Hone. injection Hone as <-. done.
Qed.

(** X18. A query on an engine configured as a browser or an API engine has a
    result of its own in the plan: it carries the identifier of the engine
    and, as its query and its URL, the search URL built for the query. *)
Theorem executeQueries_plans_configured engines now queries q engine :
  q ∈ queries →
  enginesGet engines (Query.engine q) = Some engine →
  EngineConfig.type engine = "browser" ∨ EngineConfig.type engine = "api" →
  ∃ r, r ∈ executeQueries engines now queries ∧
       QueryResult.engine r = EngineConfig.id engine ∧
       QueryResult.url r = buildSearchUrl engine (Query.query q) ∧
       QueryResult.query r = buildSearchUrl engine (Query.query q).
Proof.
  intros Hq Hget Htype. unfold executeQueries.
  destruct (foldl_fallbackStep_grows now queries (plannedResults engines now queries))
    as [more ->].
  destruct (plannedResults_configured engines now queries q engine Hq Hget Htype)
    as (r & Hr & H).
  exists r. split; [apply elem_of_app; by left|exact H].
Qed.

Lemma executeQueries_plans_configured_witness :
  ∃ r, r ∈ executeQueries getDefaultEngines (fun _ => "2026-01-01T00:00:00.000Z")
             [Query.mk "yandex" "a" 1 "A"; Query.mk "bing" "a b" 1 "A"] ∧
       QueryResult.engine r = "bing" ∧
       QueryResult.url r = "https://api.bing.microsoft.com/v7.0/search?q=a%20b" ∧
       QueryResult.query r = "https://api.bing.microsoft.com/v7.0/search?q=a%20b".
Proof.
  apply (executeQueries_plans_configured getDefaultEngines _
           [Query.mk "yandex" "a" 1 "A"; Query.mk "bing" "a b" 1 "A"]
           (Query.mk "bing" "a b" 1 "A")
           (EngineConfig.mk "bing" "api" "Bing Search"
              "https://api.bing.microsoft.com/v7.0/search"
              (Selectors.mk "webPages.value" "name" "url" "snippet"))).
  - apply elem_of_cons. right. apply elem_of_cons. by left.
  - reflexivity.
  - by right.
Defined.








(** X20. No request is answered by both generators, and none more than once:
    together they give at most one instruction per request. *)
Theorem instructions_at_most_one_per_request engines requests :
  length (generateBrowserInstructions engines requests)
  + length (generateApiInstructions engines requests)
  ≤ length requests.
Proof.
  unfold generateBrowserInstructions, generateApiInstructions.
  induction requests as [|req requests IH]; [done|].
  cbn [flat_map]. rewrite !length_app. cbn [length].
  assert (length (browserInstruction engines req) + length (apiInstruction engines req) ≤ 1);
    [|lia].
  unfold browserInstruction, apiInstruction.
  destruct (enginesGet _ _) as [engine|]; [|simpl; lia].
  destruct (String.eqb (EngineConfig.type engine) "browser") eqn:Hb;
    destruct (String.eqb (EngineConfig.type engine) "api") eqn:Ha; simpl; try lia.
  apply String.eqb_eq in Hb, Ha. congruence.
Qed.

(** * The configuration files *)

Lemma mapSet_Forall {V} (P : string * V → Prop) m key value :
  Forall P m → P (key, value) → Forall P (mapSet m key value).
Proof.
  intros Hm Hnew. induction Hm as [|[k v] m Hkv Hm IH]; cbn [mapSet].
  - by repeat constructor.
  - destruct (String.eqb_spec k key) as [->|]; constructor; done.
Qed.

Lemma mapSet_keys {V} (m : list (string * V)) key value x :
  x ∈ (fst <$> mapSet m key value) ↔ x ∈ (fst <$> m) ∨ x = key.
Proof.
  induction m as [|[k v] m IH]; cbn [mapSet].
  - rewrite fmap_cons, fmap_nil, list_elem_of_singleton, elem_of_nil. tauto.
  - destruct (String.eqb_spec k key) as [->|Hne].
    + rewrite !fmap_cons. cbn [fst]. rewrite !elem_of_cons. tauto.
    + rewrite !fmap_cons. cbn [fst]. rewrite !elem_of_cons, IH. tauto.
Qed.

Lemma mapSet_NoDup {V} (m : list (string * V)) key value :
  NoDup (fst <$> m) → NoDup (fst <$> mapSet m key value).
Proof.
  induction m as [|[k v] m IH]; cbn [mapSet].
  - intros _. rewrite fmap_cons, fmap_nil. apply NoDup_singleton.
  - rewrite fmap_cons. cbn [fst]. rewrite NoDup_cons. intros [Hk Hm].
    destruct (String.eqb_spec k key) as [->|Hne]; rewrite fmap_cons; cbn [fst];
      apply NoDup_cons; split; try done; [|by apply IH].
    rewrite mapSet_keys. intros [?|?]; done.
Qed.

(** A value that was set is the value that is found. *)
Lemma mapGet_mapSet {V} (m : list (string * V)) key value :
  mapGet (mapSet m key value) key = Some value.
Proof.
  unfold mapGet. induction m as [|[k v] m IH]; cbn [mapSet find fst].
  - by rewrite String.eqb_refl.
  - destruct (String.eqb_spec k key) as [->|Hne]; cbn [find fst].
    + by rewrite String.eqb_refl.
    + by destruct (String.eqb_spec k key).
Qed.

Lemma chars_substring_0 n s : chars (substring 0 n s) = take n (chars s).
Proof.
  revert n. induction s as [|c s IH]; intros [|n]; cbn; try done. by rewrite <- IH.
Qed.

(** A replacement that puts the matched text back changes nothing. *)
Lemma replaceFrom_matched re skip before s :
  chars (replaceFrom re (fun matched _ _ => matched) skip before s) = drop skip (chars s).
Proof.
  revert skip before. induction s as [|c rest IH]; intros skip before.
  - by destruct skip.
  - cbn [replaceFrom]. destruct skip as [|k]; [|apply IH].
    destruct (re (String c rest)) as [[|len]|].
    + cbn [chars list_ascii_of_string]. fold (chars (replaceFrom re (fun matched _ _ => matched) 0
                                                (before +:+ String c "") rest)).
      by rewrite IH.
    + rewrite chars_app, chars_substring_0, IH. cbn [chars list_ascii_of_string take drop].
      fold (chars rest). by rewrite <- app_comm_cons, take_drop.
    + cbn [chars list_ascii_of_string]. fold (chars (replaceFrom re (fun matched _ _ => matched) 0
                                                (before +:+ String c "") rest)).
      by rewrite IH.
Qed.

Lemma replaceFrom_literal_ext pat f g skip before s :
  (∀ b a, f pat b a = g pat b a) →
  replaceFrom (literalPattern pat) f skip before s
  = replaceFrom (literalPattern pat) g skip before s.
Proof.
  intros Hfg. revert skip before. induction s as [|c rest IH]; intros skip before; [done|].
  cbn [replaceFrom]. destruct skip as [|k]; [|apply IH].
  destruct (literalPattern pat (String c rest)) as [[|len]|] eqn:Hre; rewrite ?IH; try done.
  unfold literalPattern in Hre. destruct (String.prefix pat (String c rest)) eqn:Hpre; [|done].
  apply prefix_correct in Hpre. injection Hre as Hlen. rewrite Hlen in Hpre.
  by rewrite Hpre, Hfg.
Qed.

Lemma replace_literal_self pat s :
  "$"%char ∉ chars pat → replace (literalPattern pat) pat s = s.
Proof.
  intros Hpat. unfold replace.
  rewrite (replaceFrom_literal_ext pat _ (fun matched _ _ => matched)).
  - apply chars_inj. by rewrite replaceFrom_matched.
  - intros. by apply getSubstitution_no_dollar.
Qed.

Lemma ddgClause_id value : ddgClause value = value.
Proof.
  unfold ddgClause. rewrite !replace_literal_self; [done| |];
    apply (bool_decide_unpack _); vm_compute; exact I.
Qed.

Lemma filterEntry_filters (P : string * FilterConfig.t → Prop) config key value :
  Forall P (FraviaConfig.filters config) →
  (∀ code name,
      P (code, {| FilterConfig.code := code; FilterConfig.name := name;
                  FilterConfig.google := value; FilterConfig.bing := bingClause value;
                  FilterConfig.yandex := value; FilterConfig.ddg := ddgClause value |})) →
  Forall P (FraviaConfig.filters (filterEntry config key value)).
Proof.
  intros Hconfig Hnew. unfold filterEntry.
  destruct (split "_" key) as [|code [|part parts]]; try done.
  cbn [setFilters FraviaConfig.filters]. by apply mapSet_Forall.
Qed.

Lemma parseLine_filters (P : string * FilterConfig.t → Prop) st line :
  (∀ code name value,
      P (code, {| FilterConfig.code := code; FilterConfig.name := name;
                  FilterConfig.google := value; FilterConfig.bing := bingClause value;
                  FilterConfig.yandex := value; FilterConfig.ddg := ddgClause value |})) →
  Forall P (FraviaConfig.filters (ParseState.config st)) →
  Forall P (FraviaConfig.filters (ParseState.config (parseLine st line))).
Proof.
  intros Hnew Hst. unfold parseLine.
  repeat match goal with
         | |- context [if ?b then _ else _] => destruct b
         | |- context [match ?o with Some _ => _ | None => _ end] => destruct o
         end; cbn [ParseState.config setPhases setVersion FraviaConfig.filters]; try done.
  by apply filterEntry_filters.
Qed.

Lemma parseConfig_filters (P : string * FilterConfig.t → Prop) content :
  (∀ code name value,
      P (code, {| FilterConfig.code := code; FilterConfig.name := name;
                  FilterConfig.google := value; FilterConfig.bing := bingClause value;
                  FilterConfig.yandex := value; FilterConfig.ddg := ddgClause value |})) →
  Forall P (FraviaConfig.filters (parseConfig content)).
Proof.
  intros Hnew. unfold parseConfig.
  generalize (splitLines content). intros lines.
  assert (∀ st, Forall P (FraviaConfig.filters (ParseState.config st)) →
                Forall P (FraviaConfig.filters (ParseState.config (foldl parseLine st lines))))
    as Hfold.
  { induction lines as [|line lines IH]; intros st Hst; [done|].
    cbn [foldl]. by apply IH, parseLine_filters. }
  apply Hfold. constructor.
Qed.

Lemma exclusions_same_clauses (relaxed : gset string) config target target' :
  Forall (fun entry => filterValue entry.2 target = filterValue entry.2 target')
         (FraviaConfig.filters config) →
  exclusions relaxed config target = exclusions relaxed config target'.
Proof.
  unfold exclusions. induction 1 as [|[num filter] l Hf _ IH]; [done|].
  cbn [flat_map]. simpl in Hf. by rewrite Hf, IH.
Qed.

(** X21. In a configuration read from a file, whatever the file says, every
    filter is stored under its own code, and its yandex and ddg clauses are
    its google clause unchanged; so the hygiene strings for yandex and ddg
    are the one for google. *)
Theorem parseConfig_dialects content :
  Forall (fun entry =>
            FilterConfig.code entry.2 = entry.1 ∧
            FilterConfig.yandex entry.2 = FilterConfig.google entry.2 ∧
            FilterConfig.ddg entry.2 = FilterConfig.google entry.2 ∧
            FilterConfig.bing entry.2 = bingClause (FilterConfig.google entry.2))
         (FraviaConfig.filters (parseConfig content)) ∧
  (∀ codes,
      getActiveFilters codes (parseConfig content) "yandex"
      = getActiveFilters codes (parseConfig content) "google" ∧
      getActiveFilters codes (parseConfig content) "ddg"
      = getActiveFilters codes (parseConfig content) "google").
Proof.
  split.
  - apply parseConfig_filters. intros. cbn. by rewrite ddgClause_id.
  - intros codes. unfold getActiveFilters. split; f_equal; apply exclusions_same_clauses;
      apply parseConfig_filters; intros; cbn; by rewrite ?ddgClause_id.
Qed.

Lemma parseLine_phases st line :
  (Forall (fun entry => isPhaseSection entry.1 = true)
          (FraviaConfig.phases (ParseState.config st)) ∧
   NoDup (fst <$> FraviaConfig.phases (ParseState.config st)) ∧
   NoDup (fst <$> FraviaConfig.filters (ParseState.config st)) ∧
   ∀ key, ParseState.currentPhase st = Some key → isPhaseSection key = true) →
  Forall (fun entry => isPhaseSection entry.1 = true)
         (FraviaConfig.phases (ParseState.config (parseLine st line))) ∧
  NoDup (fst <$> FraviaConfig.phases (ParseState.config (parseLine st line))) ∧
  NoDup (fst <$> FraviaConfig.filters (ParseState.config (parseLine st line))) ∧
  ∀ key, ParseState.currentPhase (parseLine st line) = Some key → isPhaseSection key = true.
Proof.
  intros (Hkeys & Hphases & Hfilters & Hcur). unfold parseLine.
  destruct (negb (truthy (trim line)) || startsWith (trim line) "#"); [done|].
  destruct (startsWith (trim line) "[" && endsWith (trim line) "]").
  { destruct (startsWith _ "S" && isPhaseSection _) eqn:Hsec;
      cbn [ParseState.config ParseState.currentPhase setPhases FraviaConfig.phases
           FraviaConfig.filters]; [|done].
    apply andb_true_iff in Hsec as [_ Hsec].
    split; [by apply mapSet_Forall|]. split; [by apply mapSet_NoDup|]. split; [done|].
    by intros key [= <-]. }
  destruct (indexOf "=" (trim line)) as [eqIndex|]; [|done].
  destruct (String.eqb (ParseState.currentSection st) "meta").
  { by destruct (String.eqb _ "version"). }
  destruct (String.eqb (ParseState.currentSection st) "filters").
  { cbn [ParseState.config ParseState.currentPhase]. split; [|split; [|split; [|done]]].
    - unfold filterEntry. by destruct (split "_" _) as [|code [|part parts]].
    - unfold filterEntry. by destruct (split "_" _) as [|code [|part parts]].
    - unfold filterEntry. destruct (split "_" _) as [|code [|part parts]]; try done.
      cbn [setFilters FraviaConfig.filters]. by apply mapSet_NoDup. }
  destruct (ParseState.currentPhase st) as [phaseKey|] eqn:Hphase;
    [|repeat split; try done; intros key Hkey; apply Hcur; congruence].
  specialize (Hcur phaseKey eq_refl).
  destruct (mapGet _ phaseKey).
  - cbn [ParseState.config ParseState.currentPhase setPhases FraviaConfig.phases
         FraviaConfig.filters].
    split; [by apply mapSet_Forall|]. split; [by apply mapSet_NoDup|]. split; [done|].
    by intros key [= <-].
  - repeat split; try done. rewrite Hphase. by intros key [= <-].
Qed.

(** X22. In a configuration read from a file the keys of the phases are the
    letter S followed by digits, and neither the phases nor the filters
    have a key twice. *)
Theorem parseConfig_keys content :
  Forall (fun entry => isPhaseSection entry.1 = true)
         (FraviaConfig.phases (parseConfig content)) ∧
  NoDup (fst <$> FraviaConfig.phases (parseConfig content)) ∧
  NoDup (fst <$> FraviaConfig.filters (parseConfig content)).
Proof.
  unfold parseConfig. generalize (splitLines content). intros lines.
  assert (∀ st,
            (Forall (fun entry => isPhaseSection entry.1 = true)
                    (FraviaConfig.phases (ParseState.config st)) ∧
             NoDup (fst <$> FraviaConfig.phases (ParseState.config st)) ∧
             NoDup (fst <$> FraviaConfig.filters (ParseState.config st)) ∧
             ∀ key, ParseState.currentPhase st = Some key → isPhaseSection key = true) →
            Forall (fun entry => isPhaseSection entry.1 = true)
                   (FraviaConfig.phases (ParseState.config (foldl parseLine st lines))) ∧
            NoDup (fst <$> FraviaConfig.phases (ParseState.config (foldl parseLine st lines))) ∧
            NoDup (fst <$> FraviaConfig.filters (ParseState.config (foldl parseLine st lines))))
    as Hfold.
  { induction lines as [|line lines IH]; intros st Hst; [tauto|].
    cbn [foldl]. by apply IH, parseLine_phases. }
  apply Hfold. cbn. repeat split; try constructor. done.
Qed.

Lemma engineLine_invariant engines line :
  (Forall (fun entry => EngineConfig.id entry.2 = entry.1) engines ∧ NoDup (fst <$> engines)) →
  Forall (fun entry => EngineConfig.id entry.2 = entry.1) (engineLine engines line) ∧
  NoDup (fst <$> engineLine engines line).
Proof.
  intros [Hid Hkeys]. unfold engineLine.
  destruct (negb (truthy (trim line)) || startsWith (trim line) "#"); [done|].
  destruct (split "|" (trim line)) as [|id [|type [|name [|baseUrl [|resultSel
             [|titleSel [|urlSel [|snippetSel rest]]]]]]]]; try done.
  split; [by apply mapSet_Forall|by apply mapSet_NoDup].
Qed.

Lemma loadEngines_invariant file :
  Forall (fun entry => EngineConfig.id entry.2 = entry.1) (loadEngines file) ∧
  NoDup (fst <$> loadEngines file).
Proof.
  destruct file as [content|]; cbn [loadEngines].
  - generalize (splitLines content). intros lines.
    assert (∀ engines,
              (Forall (fun entry => EngineConfig.id entry.2 = entry.1) engines ∧
               NoDup (fst <$> engines)) →
              Forall (fun entry => EngineConfig.id entry.2 = entry.1)
                     (foldl engineLine engines lines) ∧
              NoDup (fst <$> foldl engineLine engines lines)) as Hfold.
    { induction lines as [|line lines IH]; intros engines Hst; [done|].
      cbn [foldl]. by apply IH, engineLine_invariant. }
    apply Hfold. split; constructor.
  - split; [by repeat constructor|]. apply (bool_decide_unpack _). vm_compute. exact I.
Qed.

(** X23. Whatever engines.txt holds, and also without the file, every engine
    is stored under its own identifier and no key occurs twice. *)
Theorem loadEngines_keys file :
  Forall (fun entry => EngineConfig.id entry.2 = entry.1) (loadEngines file) ∧
  NoDup (fst <$> loadEngines file).
Proof. apply loadEngines_invariant. Qed.

(** * The size of the plan *)

Lemma existsb_hasEngine_app e rs more :
  existsb (hasEngine e) rs = true → existsb (hasEngine e) (rs ++ more) = true.
Proof. intros H. by rewrite existsb_app, H. Qed.

Lemma length_filter_impl {A} (P Q : A → Prop) `{!∀ x, Decision (P x)} `{!∀ x, Decision (Q x)}
    (l : list A) :
  (∀ x, P x → Q x) → length (filter P l) ≤ length (filter Q l).
Proof.
  intros HPQ. induction l as [|x l IH]; [done|]. rewrite !filter_cons.
  destruct (decide (P x)) as [HP|HP].
  - rewrite decide_True by auto. simpl. lia.
  - destruct (decide (Q x)); simpl; lia.
Qed.

Lemma length_filter_disjoint {A} (P Q : A → Prop) `{!∀ x, Decision (P x)}
    `{!∀ x, Decision (Q x)} (l : list A) :
  (∀ x, x ∈ l → P x → ¬ Q x) → length (filter P l) + length (filter Q l) ≤ length l.
Proof.
  induction l as [|x l IH]; intros Hdisj; [done|]. rewrite !filter_cons.
  assert (length (filter P l) + length (filter Q l) ≤ length l) as IH'.
  { apply IH. intros y Hy. apply Hdisj, elem_of_cons. by right. }
  destruct (decide (P x)) as [HP|HP]; destruct (decide (Q x)) as [HQ|HQ]; simpl; try lia.
  exfalso. apply (Hdisj x); [apply elem_of_cons; by left|done|done].
Qed.

Lemma foldl_fallbackStep_length now l rs :
  length (foldl (fallbackStep now) rs l)
  ≤ length rs
    + length (filter (fun q => existsb (hasEngine (Query.engine q)) rs = false) l).
Proof.
  revert rs. induction l as [|q l IH]; intros rs; cbn [foldl]; [simpl; lia|].
  rewrite filter_cons. unfold fallbackStep at 2. fold (hasEngine (Query.engine q)).
  destruct (existsb (hasEngine (Query.engine q)) rs) eqn:Hq.
  - rewrite decide_False by done. apply IH.
  - rewrite decide_True by done. etrans; [apply IH|].
    unfold pushResult. rewrite length_app. cbn [length].
    assert (length (filter (fun p => existsb (hasEngine (Query.engine p))
                                             (rs ++ [fallbackResult q (now (length rs))]) = false) l)
            ≤ length (filter (fun p => existsb (hasEngine (Query.engine p)) rs = false) l));
      [|lia].
    apply length_filter_impl. intros p Hp.
    destruct (existsb (hasEngine (Query.engine p)) rs) eqn:Hrs; [|done].
    by rewrite existsb_hasEngine_app in Hp.
Qed.

Lemma browserInstruction_length engines req : length (browserInstruction engines req) ≤ 1.
Proof.
  unfold browserInstruction. destruct (enginesGet _ _); [|simpl; lia].
  destruct (negb _); simpl; lia.
Qed.

Lemma apiInstruction_length engines req : length (apiInstruction engines req) ≤ 1.
Proof.
  unfold apiInstruction. destruct (enginesGet _ _); [|simpl; lia].
  destruct (negb _); simpl; lia.
Qed.

Lemma instructions_length engines l :
  length (generateBrowserInstructions engines
            (toRequest <$> filter (fun q => isBrowserQuery engines q = true) l))
  + length (generateApiInstructions engines
              (toRequest <$> filter (fun q => isBrowserQuery engines q = false) l))
  ≤ length (filter (fun q => hasInstruction engines q = true) l).
Proof.
  unfold generateBrowserInstructions, generateApiInstructions.
  induction l as [|q l IH]; [done|]. rewrite !filter_cons.
  pose proof (browserInstruction_length engines (toRequest q)) as Hb.
  pose proof (apiInstruction_length engines (toRequest q)) as Ha.
  destruct (isBrowserQuery engines q) eqn:Hq.
  - rewrite decide_True, decide_False by done. rewrite fmap_cons. cbn [flat_map].
    rewrite length_app.
    destruct (browserInstruction engines (toRequest q)) as [|inst rest] eqn:Hinst.
    + destruct (decide (hasInstruction engines q = true)); simpl in *; lia.
    + rewrite decide_True; [simpl in *; lia|]. unfold hasInstruction. by rewrite Hinst.
  - rewrite decide_False, decide_True by done. rewrite fmap_cons. cbn [flat_map].
    rewrite length_app.
    destruct (apiInstruction engines (toRequest q)) as [|inst rest] eqn:Hinst.
    + destruct (decide (hasInstruction engines q = true)); simpl in *; lia.
    + rewrite decide_True; [simpl in *; lia|]. unfold hasInstruction. rewrite Hinst.
      by destruct (browserInstruction _ _).
Qed.

Lemma hasInstruction_configured engines q :
  hasInstruction engines q = true →
  ∃ engine, enginesGet engines (Query.engine q) = Some engine ∧
            (EngineConfig.type engine = "browser" ∨ EngineConfig.type engine = "api").
Proof.
  unfold hasInstruction, browserInstruction, apiInstruction.
  cbn [toRequest SearchRequest.engine].
  destruct (enginesGet _ _) as [engine|]; [|done].
  intros H. exists engine. split; [done|].
  destruct (String.eqb_spec (EngineConfig.type engine) "browser"); [by left|].
  destruct (String.eqb_spec (EngineConfig.type engine) "api"); [by right|].
  done.
Qed.

Lemma executeQueries_length engines now queries :
  Forall (fun entry => EngineConfig.id entry.2 = entry.1) engines →
  length (executeQueries engines now queries) ≤ length queries.
Proof.
  intros Hid. unfold executeQueries.
  etrans; [apply foldl_fallbackStep_length|].
  set (planned := plannedResults engines now queries).
  assert (length planned ≤ length (filter (fun q => hasInstruction engines q = true) queries))
    as Hplanned.
  { unfold planned.
    destruct (plannedResults_shape engines now queries) as (browser & api & -> & Hb & Ha).
    rewrite length_app, <- (Forall2_length _ _ _ Hb), <- (Forall2_length _ _ _ Ha).
    apply instructions_length. }
  etrans; [|apply (length_filter_disjoint (fun q => hasInstruction engines q = true)
                     (fun q => existsb (hasEngine (Query.engine q)) planned = false))].
  - lia.
  - intros q Hq Hinst Hnone.
    apply hasInstruction_configured in Hinst as (engine & Hget & Htype).
    destruct (plannedResults_configured engines now queries q engine Hq Hget Htype)
      as (r & Hr & Heng & _).
    assert (existsb (hasEngine (Query.engine q)) planned = true) as Hex; [|congruence].
    apply existsb_exists. exists r. split; [by apply list_elem_of_In|].
    unfold hasEngine. apply String.eqb_eq. rewrite Heng.
    apply enginesGet_Some in Hget. rewrite Forall_forall in Hid. exact (Hid _ Hget).
Qed.

(** X24. With the engines read from engines.txt, whatever the file holds, or
    with the default engines, the plan never has more results than there
    are queries. *)
Theorem executeQueries_at_most_one_result_per_query file now queries :
  length (executeQueries (loadEngines file) now queries) ≤ length queries.
Proof. apply executeQueries_length, loadEngines_invariant. Qed.
